(** * Pricing reference implementation (examples/ecommerce-with-reference/reference/pricing.py)

    A shallow embedding of the three functions of [pricing.py]:
    [calculate_total], [apply_discount] and [validate_order].

    Python numbers are kept as the interpreter has them: an [int] is an
    unbounded integer ([Z]), a [float] is an IEEE-754 binary64 value (Rocq's
    primitive [float], whose [+ - * /] are the hardware operations rounding
    to nearest, ties to even).  Mixed arithmetic converts the [int] operand to
    [float] first and raises [OverflowError] when it does not fit; comparisons
    between an int and a float are exact.  [round(x, 2)] rounds the exact
    binary value to the nearest hundredth, ties to even, and reads the
    decimal back as a float.  [sum] adds from left to right, starting from
    the int [0].  Exceptions are values of a small error monad; a dict is a
    finite map with string keys, and a subscript of an absent key raises
    [KeyError]. *)

From Stdlib Require Import ZArith Lia Bool List String.
From Stdlib Require Import Floats.
From stdpp Require Import base option gmap strings.
Import ListNotations.

Set Warnings "-inexact-float".
Local Open Scope Z_scope.
Local Open Scope string_scope.

(** ** Exceptions *)

Inductive exn : Type :=
| KeyError (key : string)
| OverflowError
| ZeroDivisionError.

Inductive result (A : Type) : Type :=
| Ok (a : A)
| Raise (e : exn).
Arguments Ok {A} a.
Arguments Raise {A} e.

Definition bind {A B : Type} (r : result A) (k : A -> result B) : result B :=
  match r with
  | Ok a => k a
  | Raise e => Raise e
  end.

Notation "'do' x <- r ; k" := (bind r (fun x => k))
  (at level 10, x name, r at level 100, k at level 200).

(** ** Numbers *)

Inductive num : Type :=
| NInt (z : Z)
| NFloat (f : float).

(** [float(z)]: the nearest binary64 value, ties to even; an [int] beyond the
    range of finite floats raises [OverflowError]. *)
Definition int_to_float (z : Z) : result float :=
  match binary_normalize prec emax z 0 false with
  | S754_infinity _ => Raise OverflowError
  | sf => Ok (SF2Prim sf)
  end.

Definition as_float (n : num) : result float :=
  match n with
  | NInt z => int_to_float z
  | NFloat f => Ok f
  end.

(** The binary operators: [int op int] stays an [int], anything else is
    computed on floats. *)
Definition arith (iop : Z -> Z -> Z) (fop : float -> float -> float)
  (a b : num) : result num :=
  match a, b with
  | NInt x, NInt y => Ok (NInt (iop x y))
  | _, _ =>
      do x <- as_float a;
      do y <- as_float b;
      Ok (NFloat (fop x y))
  end.

Definition py_add : num -> num -> result num := arith Z.add PrimFloat.add.
Definition py_sub : num -> num -> result num := arith Z.sub PrimFloat.sub.
Definition py_mul : num -> num -> result num := arith Z.mul PrimFloat.mul.

(** A (possibly large) signed integer as an unrounded [spec_float]. *)
Definition Z2SF_exact (sign_of_zero : bool) (z : Z) : spec_float :=
  match z with
  | Z0 => S754_zero sign_of_zero
  | Zpos p => S754_finite false p 0
  | Zneg p => S754_finite true p 0
  end.

(** True division [a / b].  On two ints the quotient is rounded once, from the
    exact rational. *)
Definition py_truediv (a b : num) : result num :=
  match a, b with
  | NInt x, NInt y =>
      if Z.eqb y 0 then Raise ZeroDivisionError
      else
        match SFdiv prec emax (Z2SF_exact (Z.ltb y 0) x) (Z2SF_exact false y) with
        | S754_infinity _ => Raise OverflowError
        | sf => Ok (NFloat (SF2Prim sf))
        end
  | _, _ =>
      do x <- as_float a;
      do y <- as_float b;
      if PrimFloat.eqb y 0%float then Raise ZeroDivisionError
      else Ok (NFloat (x / y)%float)
  end.

(** Round-half-even of the rational [n / d], for [0 < d]. *)
Definition round_half_even (n d : Z) : Z :=
  let q := n / d in
  let r := n mod d in
  match Z.compare (2 * r) d with
  | Lt => q
  | Gt => q + 1
  | Eq => if Z.even q then q else q + 1
  end.

(** [round(x, 2)] on a float: the exact binary value of [x] is rounded to the
    nearest multiple of 1/100 (ties to even), and the decimal obtained is read
    back as the nearest float.  Infinities, NaN and floats that are already
    integers are returned unchanged. *)
Definition round2_float (f : float) : float :=
  match Prim2SF f with
  | S754_finite s m e =>
      if Z.leb 0 e then f
      else
        let cents := round_half_even (Z.pos m * 100) (2 ^ (- e)) in
        match cents with
        | Zpos c =>
            SF2Prim (SFdiv prec emax (S754_finite s c 0) (S754_finite false 100 0))
        | _ => SF2Prim (S754_zero s)
        end
  | _ => f
  end.

(** [round(n, 2)]: an [int] is returned as it is. *)
Definition round2 (n : num) : num :=
  match n with
  | NInt z => NInt z
  | NFloat f => NFloat (round2_float f)
  end.

(** Exact three-way comparison of an int with a float; [None] on NaN. *)
Definition cmp_int_float (z : Z) (f : float) : option comparison :=
  match Prim2SF f with
  | S754_nan => None
  | S754_infinity s => Some (if s then Gt else Lt)
  | S754_zero _ => Some (Z.compare z 0)
  | S754_finite s m e =>
      let v := if s then Z.neg m else Z.pos m in
      Some (if Z.leb 0 e then Z.compare z (v * 2 ^ e)
            else Z.compare (z * 2 ^ (- e)) v)
  end.

Definition py_cmp (a b : num) : option comparison :=
  match a, b with
  | NInt x, NInt y => Some (Z.compare x y)
  | NInt x, NFloat g => cmp_int_float x g
  | NFloat f, NInt y => option_map CompOpp (cmp_int_float y f)
  | NFloat f, NFloat g => SFcompare (Prim2SF f) (Prim2SF g)
  end.

(** [a >= b] and [a == b]; a comparison with NaN is false. *)
Definition py_ge (a b : num) : bool :=
  match a, b with
  | NFloat f, NFloat g => PrimFloat.leb g f
  | _, _ => match py_cmp a b with Some (Gt | Eq) => true | _ => false end
  end.

Definition py_eq (a b : num) : bool :=
  match a, b with
  | NFloat f, NFloat g => PrimFloat.eqb f g
  | _, _ => match py_cmp a b with Some Eq => true | _ => false end
  end.

(** [sum(xs)]: starts from the int [0] and adds from left to right, as
    CPython does up to 3.11.  (From 3.12 on, [sum] compensates the rounding
    errors of float additions; the two agree on ints and on at most two
    float terms.) *)
Definition py_sum (xs : list (result num)) : result num :=
  fold_left (fun acc x => do a <- acc; do v <- x; py_add a v) xs (Ok (NInt 0)).

(** ** Values stored in a dict *)

Inductive pyval : Type :=
| PyNone
| PyStr (s : string)
| PyNum (n : num).

(** [d[key]]: raises [KeyError] when the key is absent. *)
Definition subscript {V : Type} (d : gmap string V) (key : string) : result V :=
  match d !! key with
  | Some v => Ok v
  | None => Raise (KeyError key)
  end.

(** [d.get(key, default)] for a dict with string keys: a key that is not a
    string equals none of them. *)
Definition dict_get {V : Type} (d : gmap string V) (key : pyval) (default : V) : V :=
  match key with
  | PyStr s => match d !! s with Some v => v | None => default end
  | _ => default
  end.

(** [v == s] for a string literal [s]. *)
Definition eq_str (v : pyval) (s : string) : bool :=
  match v with
  | PyStr s' => bool_decide (s' = s)
  | _ => false
  end.

(** ** The data of [calculate_total] *)

(** An item: [{price: float, quantity: int}]; the price may be given as an
    int as well. *)
Record LineItem : Type := { price : num; quantity : Z }.

(** The returned dict, with its four keys. *)
Record OrderSummary : Type :=
  { subtotal : num; discount : num; tax : num; total : num }.

Definition tier_discounts : gmap string num :=
  {[ "bronze" := NFloat 0.05%float;
     "silver" := NFloat 0.10%float;
     "gold" := NFloat 0.15%float ]}.

(** ** [calculate_total], statement by statement *)

(** [sum(item['price'] * item['quantity'] for item in items)] *)
Definition subtotal_of (items : list LineItem) : result num :=
  py_sum (map (fun item => py_mul (price item) (NInt (quantity item))) items).

(** [sum(item['quantity'] for item in items)] *)
Definition total_items_of (items : list LineItem) : Z :=
  fold_left Z.add (map quantity items) 0.

(** [volume_discount = 0; if total_items >= 10: volume_discount = subtotal * 0.10] *)
Definition volume_discount_of (subtotal : num) (total_items : Z) : result num :=
  if Z.leb 10 total_items then py_mul subtotal (NFloat 0.10%float)
  else Ok (NInt 0).

(** [tier_discounts.get(user['loyaltyTier'], 0)] *)
Definition tier_rate (user : gmap string pyval) : result num :=
  do tier <- subscript user "loyaltyTier";
  Ok (dict_get tier_discounts tier (NInt 0)).

(** [loyalty_discount = subtotal * tier_discounts.get(user['loyaltyTier'], 0)] *)
Definition loyalty_discount_of (subtotal : num) (user : gmap string pyval) : result num :=
  do rate <- tier_rate user;
  py_mul subtotal rate.

(** [if tax_rate is None: tax_rate = 0.08 if user['state'] == 'CA' else 0.05] *)
Definition effective_tax_rate (user : gmap string pyval) (tax_rate : option num) : result num :=
  match tax_rate with
  | Some r => Ok r
  | None =>
      do state <- subscript user "state";
      Ok (if eq_str state "CA" then NFloat 0.08%float else NFloat 0.05%float)
  end.

Definition calculate_total (items : list LineItem) (user : gmap string pyval)
  (tax_rate : option num) : result OrderSummary :=
  do subtotal <- subtotal_of items;
  let total_items := total_items_of items in
  do volume_discount <- volume_discount_of subtotal total_items;
  do loyalty_discount <- loyalty_discount_of subtotal user;
  do total_discount <- py_add volume_discount loyalty_discount;
  do tax_rate <- effective_tax_rate user tax_rate;
  do taxable_amount <- py_sub subtotal total_discount;
  do tax <- py_mul taxable_amount tax_rate;
  do net <- py_sub subtotal total_discount;
  do total <- py_add net tax;
  Ok {| subtotal := round2 subtotal;
        discount := round2 total_discount;
        tax := round2 tax;
        total := round2 total |}.

(** ** [apply_discount] and [validate_order] *)

Definition apply_discount (amount discount_percent : num) : result num :=
  do fraction <- py_truediv discount_percent (NInt 100);
  do discount <- py_mul amount fraction;
  do rest <- py_sub amount discount;
  Ok (round2 rest).

(** [minimum] is [None] when the caller leaves it out: the default is [10.00]. *)
Definition validate_order (order_total : num) (minimum : option num) : bool :=
  py_ge order_total (default (NFloat 10.00%float) minimum).

(** The formula the specification gives for [apply_discount]:
    [round(amount - amount * (discount_percent / 100), 2)]. *)
Definition apply_discount_formula (amount discount_percent : num) : result num :=
  do q <- py_truediv discount_percent (NInt 100);
  do p <- py_mul amount q;
  do d <- py_sub amount p;
  Ok (round2 d).

(** ** Classification of numbers *)

Definition float_finite (f : float) : bool :=
  match Prim2SF f with
  | S754_nan | S754_infinity _ => false
  | _ => true
  end.

(** Neither an infinity nor NaN. *)
Definition is_finite (n : num) : bool :=
  match n with
  | NInt _ => true
  | NFloat f => float_finite f
  end.

(** A tier that [tier_discounts] knows. *)
Definition known_tier (v : pyval) : Prop :=
  v = PyStr "bronze" \/ v = PyStr "silver" \/ v = PyStr "gold".

(** The discounts of an order are the int 0 or a float. *)
Definition zero_or_float (n : num) : Prop :=
  n = NInt 0 \/ exists f, n = NFloat f.

(** Items as the docstring types them: a float price and an int quantity (in
    the range of floats). *)
Definition documented_item (item : LineItem) : Prop :=
  (exists f, price item = NFloat f) /\ exists g, int_to_float (quantity item) = Ok g.

(** ** Exact values *)

(** The exact value of a finite number, scaled by [2 ^ 1074] so that it is
    an integer: the smallest exponent of a binary64 float is [-1074]. *)
Definition SF_scaled (x : spec_float) : option Z :=
  match x with
  | S754_zero _ => Some 0
  | S754_finite s m e => Some ((if s then Z.neg m else Z.pos m) * 2 ^ (e + 1074))
  | _ => None
  end.

Definition exact_scaled (n : num) : option Z :=
  match n with
  | NInt z => Some (z * 2 ^ 1074)
  | NFloat f => SF_scaled (Prim2SF f)
  end.

(** The magnitude of a finite float with mantissa [m] and exponent [e], on
    the same scale. *)
Definition mag (m : positive) (e : Z) : Z := Z.pos m * 2 ^ (e + 1074).

(** ** Definitions for the further properties *)

(** An item whose price is an int. *)
Definition int_priced (item : LineItem) : Prop := exists p, price item = NInt p.

(** [price * quantity] of an item whose price is an int. *)
Definition int_line (item : LineItem) : Z :=
  match price item with
  | NInt p => p * quantity item
  | NFloat _ => 0
  end.

(** The exact subtotal of items with int prices. *)
Definition int_subtotal (items : list LineItem) : Z :=
  fold_left Z.add (map int_line items) 0.

(** A float that is a zero or NaN. *)
Definition zero_or_nan (f : float) : Prop :=
  (exists s, Prim2SF f = S754_zero s) \/ Prim2SF f = S754_nan.

(** The value of a number that is not NaN: an exact finite value on the scale
    [2 ^ 1074], or an infinity. *)
Inductive ext : Type :=
| NegInf
| Fin (z : Z)
| PosInf.

Definition ext_compare (x y : ext) : comparison :=
  match x, y with
  | NegInf, NegInf => Eq
  | NegInf, _ => Lt
  | _, NegInf => Gt
  | PosInf, PosInf => Eq
  | PosInf, _ => Gt
  | _, PosInf => Lt
  | Fin a, Fin b => Z.compare a b
  end.

Definition SF_ext (x : spec_float) : option ext :=
  match x with
  | S754_nan => None
  | S754_infinity s => Some (if s then NegInf else PosInf)
  | _ => option_map Fin (SF_scaled x)
  end.

Definition ext_value (n : num) : option ext :=
  match n with
  | NInt z => Some (Fin (z * 2 ^ 1074))
  | NFloat f => SF_ext (Prim2SF f)
  end.

(** What [py_cmp] computes, in terms of the values. *)
Definition value_cmp (a b : num) : option comparison :=
  match ext_value a, ext_value b with
  | Some x, Some y => Some (ext_compare x y)
  | _, _ => None
  end.

(** * Properties *)

(** ** The error monad *)

Lemma bind_Ok {A B : Type} (r : result A) (k : A -> result B) (b : B) :
  bind r k = Ok b -> exists a, r = Ok a /\ k a = Ok b.
Proof.
  destruct r as [a|e]; simpl; intros H; [eauto | discriminate].
Qed.

Ltac inv_bind H :=
  let a := fresh "v" in
  let Ha := fresh "E" in
  apply bind_Ok in H; destruct H as (a & Ha & H).

(** ** Arithmetic on floats: multiplying and adding zero *)

Lemma int_to_float_0 : int_to_float 0 = Ok 0%float.
Proof. reflexivity. Qed.

Lemma mul_zero_finite (f : float) :
  float_finite f = true -> exists s, Prim2SF (f * 0)%float = S754_zero s.
Proof.
  unfold float_finite. intros H. rewrite mul_spec.
  change (Prim2SF 0%float) with (S754_zero false).
  destruct (Prim2SF f) as [s| s | |s m e]; try discriminate; simpl; eauto.
Qed.

Lemma add_zero_zero (z : float) (s : bool) :
  Prim2SF z = S754_zero s -> (0 + z)%float = 0%float.
Proof.
  intros H. apply Prim2SF_inj. rewrite add_spec, H.
  change (Prim2SF 0%float) with (S754_zero false).
  destruct s; reflexivity.
Qed.

Lemma round2_float_not_finite (f : float) :
  float_finite f = false -> round2_float f = f.
Proof.
  unfold float_finite, round2_float.
  destruct (Prim2SF f); intros H; try discriminate; reflexivity.
Qed.

Lemma round2_finite (n : num) : is_finite (round2 n) = true -> is_finite n = true.
Proof.
  destruct n as [z|f]; simpl; [easy|].
  destruct (float_finite f) eqn:E; [easy|].
  rewrite (round2_float_not_finite f E), E. easy.
Qed.

(** ** Dict lookups *)

Lemma tier_discounts_lookup (s : string) :
  tier_discounts !! s =
    if decide (s = "bronze") then Some (NFloat 0.05%float)
    else if decide (s = "silver") then Some (NFloat 0.10%float)
    else if decide (s = "gold") then Some (NFloat 0.15%float)
    else None.
Proof.
  unfold tier_discounts.
  repeat case_decide; subst; simplify_map_eq; reflexivity.
Qed.

Lemma dict_get_unknown (v : pyval) :
  ~ known_tier v -> dict_get tier_discounts v (NInt 0) = NInt 0.
Proof.
  unfold known_tier. intros H. destruct v as [|s|n]; simpl; try reflexivity.
  rewrite tier_discounts_lookup.
  repeat case_decide; subst; try reflexivity; exfalso; apply H; auto.
Qed.

Lemma tier_rate_unknown (user : gmap string pyval) (v : pyval) :
  user !! "loyaltyTier" = Some v -> ~ known_tier v -> tier_rate user = Ok (NInt 0).
Proof.
  intros Hv Hk. unfold tier_rate, subscript. rewrite Hv. simpl.
  now rewrite dict_get_unknown.
Qed.

(** ** The statements of [calculate_total], read back from a result *)

Lemma calculate_total_inv items user tax_rate r :
  calculate_total items user tax_rate = Ok r ->
  exists s vd ld td rate ta tx tot,
    subtotal_of items = Ok s /\
    volume_discount_of s (total_items_of items) = Ok vd /\
    loyalty_discount_of s user = Ok ld /\
    py_add vd ld = Ok td /\
    effective_tax_rate user tax_rate = Ok rate /\
    py_sub s td = Ok ta /\
    py_mul ta rate = Ok tx /\
    py_add ta tx = Ok tot /\
    r = {| subtotal := round2 s; discount := round2 td;
           tax := round2 tx; total := round2 tot |}.
Proof.
  unfold calculate_total. intros H.
  inv_bind H. inv_bind H. inv_bind H. inv_bind H. inv_bind H.
  inv_bind H. inv_bind H. inv_bind H. inv_bind H.
  injection H as <-.
  match goal with
  | H1 : py_sub ?s ?d = Ok ?a, H2 : py_sub ?s ?d = Ok ?b |- _ =>
      rewrite H1 in H2; injection H2 as <-
  end.
  do 8 eexists. repeat (split; [eassumption|]). reflexivity.
Qed.

Lemma calculate_total_intro items user tax_rate s vd ld td rate ta tx tot :
  subtotal_of items = Ok s ->
  volume_discount_of s (total_items_of items) = Ok vd ->
  loyalty_discount_of s user = Ok ld ->
  py_add vd ld = Ok td ->
  effective_tax_rate user tax_rate = Ok rate ->
  py_sub s td = Ok ta ->
  py_mul ta rate = Ok tx ->
  py_add ta tx = Ok tot ->
  calculate_total items user tax_rate =
    Ok {| subtotal := round2 s; discount := round2 td;
          tax := round2 tx; total := round2 tot |}.
Proof.
  intros H1 H2 H3 H4 H5 H6 H7 H8. unfold calculate_total.
  rewrite H1; simpl. rewrite H2; simpl. rewrite H3; simpl. rewrite H4; simpl.
  rewrite H5; simpl. rewrite H6; simpl. rewrite H7; simpl. rewrite H8; simpl.
  reflexivity.
Qed.

(** ** When the mixed operators succeed *)

Lemma arith_float_r iop fop (a : num) (x y : float) :
  as_float a = Ok x -> arith iop fop a (NFloat y) = Ok (NFloat (fop x y)).
Proof.
  intros H. destruct a as [z|f]; cbn [arith as_float bind] in *;
    [rewrite H | injection H as ->]; reflexivity.
Qed.

Lemma arith_float_r_inv iop fop (a c : num) (y : float) :
  arith iop fop a (NFloat y) = Ok c ->
  exists x, as_float a = Ok x /\ c = NFloat (fop x y).
Proof.
  destruct a as [z|f]; cbn [arith as_float bind].
  - destruct (int_to_float z) as [x|e]; cbn [bind]; intros H; [|discriminate].
    injection H as <-. eauto.
  - intros H. injection H as <-. eauto.
Qed.

Lemma arith_float_l iop fop (b : num) (x y : float) :
  as_float b = Ok y -> arith iop fop (NFloat x) b = Ok (NFloat (fop x y)).
Proof.
  intros H. destruct b as [z|f]; cbn [arith as_float bind] in *;
    [rewrite H | injection H as ->]; reflexivity.
Qed.

(** Two numbers that both fit a float can always be combined; the result is
    an int only when both operands are. *)
Lemma arith_returns iop fop (a b : num) (x y : float) :
  as_float a = Ok x -> as_float b = Ok y ->
  exists c, arith iop fop a b = Ok c /\
    (forall z, c = NInt z -> exists p q, a = NInt p /\ b = NInt q /\ z = iop p q) /\
    (forall f, c = NFloat f -> f = fop x y).
Proof.
  intros Ha Hb. destruct a as [p|f], b as [q|g]; cbn [arith as_float bind] in *.
  - eexists; split; [reflexivity|]. split; [|discriminate].
    intros z [= <-]. eauto.
  - rewrite Ha. injection Hb as <-. eexists; split; [reflexivity|].
    split; [discriminate|]. now intros ? [= <-].
  - rewrite Hb. injection Ha as <-. eexists; split; [reflexivity|].
    split; [discriminate|]. now intros ? [= <-].
  - injection Ha as <-. injection Hb as <-. eexists; split; [reflexivity|].
    split; [discriminate|]. now intros ? [= <-].
Qed.

Lemma effective_tax_rate_default (user : gmap string pyval) (rate : num) :
  effective_tax_rate user None = Ok rate ->
  rate = NFloat 0.08%float \/ rate = NFloat 0.05%float.
Proof.
  unfold effective_tax_rate. intros H. inv_bind H.
  destruct (eq_str v "CA"); injection H as <-; auto.
Qed.



(** ** Comparisons are exact *)

Lemma digits2_pos_bounds (m : positive) :
  2 ^ (Z.pos (digits2_pos m) - 1) <= Z.pos m < 2 ^ Z.pos (digits2_pos m).
Proof.
  induction m as [m IH|m IH|]; cbn [digits2_pos].
  - rewrite Pos2Z.inj_succ.
    replace (Z.succ (Z.pos (digits2_pos m)) - 1) with (Z.succ (Z.pos (digits2_pos m) - 1)) by lia.
    rewrite !Z.pow_succ_r by lia. lia.
  - rewrite Pos2Z.inj_succ.
    replace (Z.succ (Z.pos (digits2_pos m)) - 1) with (Z.succ (Z.pos (digits2_pos m) - 1)) by lia.
    rewrite !Z.pow_succ_r by lia. lia.
  - simpl. lia.
Qed.

Lemma valid_finite_bounds (s : bool) (m : positive) (e : Z) :
  valid_binary (S754_finite s m e) = true ->
  -1074 <= e /\ Z.pos m < 2 ^ 53 /\ (-1074 < e -> 2 ^ 52 <= Z.pos m).
Proof.
  unfold SpecFloat.valid_binary, bounded, canonical_mantissa, fexp, SpecFloat.emin, prec, emax.
  intros H. apply andb_true_iff in H as [H _]. apply Z.eqb_eq in H.
  pose proof (digits2_pos_bounds m) as [Hlo Hhi].
  set (d := Z.pos (digits2_pos m)) in *.
  assert (Hd : 0 < d) by (subst d; lia).
  split; [lia|]. split.
  - assert (d <= 53) by lia.
    eapply Z.lt_le_trans; [exact Hhi|]. apply Z.pow_le_mono_r; lia.
  - intros He. assert (d = 53) as Hd53 by lia. rewrite Hd53 in Hlo. exact Hlo.
Qed.

Lemma mag_pos (s : bool) (m : positive) (e : Z) :
  valid_binary (S754_finite s m e) = true -> 0 < mag m e.
Proof.
  intros H. apply valid_finite_bounds in H as (He & _ & _).
  unfold mag. apply Z.mul_pos_pos; [lia|]. apply Z.pow_pos_nonneg; lia.
Qed.

Lemma mag_lt (s1 s2 : bool) (m1 m2 : positive) (e1 e2 : Z) :
  valid_binary (S754_finite s1 m1 e1) = true ->
  valid_binary (S754_finite s2 m2 e2) = true ->
  e1 < e2 -> mag m1 e1 < mag m2 e2.
Proof.
  intros H1 H2 He.
  apply valid_finite_bounds in H1 as (He1 & Hm1 & _).
  apply valid_finite_bounds in H2 as (He2 & _ & Hm2).
  specialize (Hm2 ltac:(lia)). unfold mag.
  assert (Hk : 0 < 2 ^ (e1 + 1074)) by (apply Z.pow_pos_nonneg; lia).
  replace (e2 + 1074) with ((e1 + 1074) + (e2 - e1)) by lia.
  rewrite (Z.pow_add_r 2 (e1 + 1074) (e2 - e1)) by lia.
  assert (Hp : 2 ^ 1 <= 2 ^ (e2 - e1)) by (apply Z.pow_le_mono_r; lia).
  change (2 ^ 1) with 2 in Hp. change (2 ^ 53) with (2 * 2 ^ 52) in Hm1.
  set (K := 2 ^ (e1 + 1074)) in *. set (P := 2 ^ (e2 - e1)) in *.
  set (T := 2 ^ 52) in *.
  assert (Z.pos m1 * K < 2 * T * K) by (apply Z.mul_lt_mono_pos_r; lia).
  assert (2 * T * K <= Z.pos m2 * P * K).
  { apply Z.mul_le_mono_nonneg_r; [lia|].
    transitivity (Z.pos m2 * 2); [lia|].
    apply Z.mul_le_mono_nonneg_l; lia. }
  lia.
Qed.

Lemma mag_compare (s1 s2 : bool) (m1 m2 : positive) (e1 e2 : Z) :
  valid_binary (S754_finite s1 m1 e1) = true ->
  valid_binary (S754_finite s2 m2 e2) = true ->
  match Z.compare e1 e2 with
  | Lt => Lt
  | Gt => Gt
  | Eq => Pos.compare_cont Eq m1 m2
  end = Z.compare (mag m1 e1) (mag m2 e2).
Proof.
  intros H1 H2. destruct (Z.compare_spec e1 e2) as [He|He|He].
  - subst e2. unfold mag.
    rewrite <- Zmult_compare_compat_r; [reflexivity|].
    apply valid_finite_bounds in H1 as (He1 & _ & _).
    apply Z.lt_gt, Z.pow_pos_nonneg; lia.
  - symmetry. apply Z.compare_lt_iff. eapply mag_lt; eassumption.
  - symmetry. apply Z.compare_gt_iff. eapply mag_lt; eassumption.
Qed.

(** On valid finite floats [SFcompare] is the order of the exact values. *)
Lemma SFcompare_exact (x y : spec_float) (vx vy : Z) :
  valid_binary x = true -> valid_binary y = true ->
  SF_scaled x = Some vx -> SF_scaled y = Some vy ->
  SFcompare x y = Some (Z.compare vx vy).
Proof.
  intros Hx Hy Sx Sy.
  destruct x as [sx|sx| |sx mx ex]; try discriminate;
  destruct y as [sy|sy| |sy my ey]; try discriminate;
  cbn [SF_scaled] in Sx, Sy; injection Sx as <-; injection Sy as <-;
  cbn [SFcompare].
  - reflexivity.
  - pose proof (mag_pos _ _ _ Hy) as Hp. unfold mag in Hp.
    f_equal. symmetry. destruct sy.
    + apply Z.compare_gt_iff. rewrite <- Pos2Z.opp_pos. lia.
    + apply Z.compare_lt_iff. lia.
  - pose proof (mag_pos _ _ _ Hx) as Hp. unfold mag in Hp.
    f_equal. symmetry. destruct sx.
    + apply Z.compare_lt_iff. rewrite <- Pos2Z.opp_pos. lia.
    + apply Z.compare_gt_iff. lia.
  - pose proof (mag_pos _ _ _ Hx) as Hpx. pose proof (mag_pos _ _ _ Hy) as Hpy.
    pose proof (mag_compare _ _ _ _ _ _ Hx Hy) as Hc.
    unfold mag in *. f_equal. destruct sx, sy.
    + rewrite <- !Pos2Z.opp_pos, !Z.mul_opp_l, Z.compare_opp.
      rewrite (Z.compare_antisym (Z.pos mx * _)), <- Hc.
      destruct (Z.compare ex ey); reflexivity.
    + symmetry. apply Z.compare_lt_iff. rewrite <- Pos2Z.opp_pos. lia.
    + symmetry. apply Z.compare_gt_iff. rewrite <- Pos2Z.opp_pos. lia.
    + exact Hc.
Qed.

Lemma cmp_int_float_exact (z : Z) (f : float) (vf : Z) :
  SF_scaled (Prim2SF f) = Some vf ->
  cmp_int_float z f = Some (Z.compare (z * 2 ^ 1074) vf).
Proof.
  unfold cmp_int_float. pose proof (Prim2SF_valid f) as Hv.
  destruct (Prim2SF f) as [s|s| |s m e]; try discriminate;
    cbn [SF_scaled]; intros [= <-]; f_equal.
  - change 0 with (0 * 2 ^ 1074) at 2.
    apply Zmult_compare_compat_r. reflexivity.
  - apply valid_finite_bounds in Hv as (He & _ & _).
    set (v := if s then Z.neg m else Z.pos m).
    destruct (Z.leb_spec 0 e) as [H0|H0].
    + rewrite (Z.pow_add_r 2 e 1074), Z.mul_assoc by lia.
      apply Zmult_compare_compat_r. reflexivity.
    + replace (2 ^ 1074) with (2 ^ (- e) * 2 ^ (e + 1074)).
      * rewrite Z.mul_assoc. apply Zmult_compare_compat_r.
        apply Z.lt_gt, Z.pow_pos_nonneg; lia.
      * rewrite <- Z.pow_add_r by lia. f_equal. lia.
Qed.

(** Comparisons of finite numbers are comparisons of their exact values, for
    ints, floats and one of each alike. *)
Lemma py_cmp_exact (a b : num) (va vb : Z) :
  exact_scaled a = Some va -> exact_scaled b = Some vb ->
  py_cmp a b = Some (Z.compare va vb).
Proof.
  destruct a as [x|f], b as [y|g]; cbn [exact_scaled py_cmp].
  - intros [= <-] [= <-]. f_equal. apply Zmult_compare_compat_r. reflexivity.
  - intros [= <-] Hg. now apply cmp_int_float_exact.
  - intros Hf [= <-]. rewrite (cmp_int_float_exact y f va Hf). cbn [option_map].
    now rewrite (Z.compare_antisym (y * 2 ^ 1074) va).
  - intros Hf Hg. apply SFcompare_exact; auto using Prim2SF_valid.
Qed.

Lemma py_ge_exact (a b : num) (va vb : Z) :
  exact_scaled a = Some va -> exact_scaled b = Some vb ->
  py_ge a b = true <-> vb <= va.
Proof.
  intros Ha Hb.
  assert (E : py_ge a b = match py_cmp a b with Some (Gt | Eq) => true | _ => false end).
  { destruct a as [x|f], b as [y|g]; try reflexivity.
    cbn [py_ge py_cmp]. rewrite FloatAxioms.leb_spec. unfold SFleb.
    cbn [exact_scaled] in Ha, Hb.
    rewrite (SFcompare_exact _ _ vb va (Prim2SF_valid g) (Prim2SF_valid f) Hb Ha).
    rewrite (SFcompare_exact _ _ va vb (Prim2SF_valid f) (Prim2SF_valid g) Ha Hb).
    rewrite (Z.compare_antisym vb va). destruct (Z.compare vb va); reflexivity. }
  rewrite E, (py_cmp_exact a b va vb Ha Hb).
  destruct (Z.compare_spec va vb); split; intros; try lia; try discriminate; reflexivity.
Qed.

Lemma py_eq_exact (a b : num) (va vb : Z) :
  exact_scaled a = Some va -> exact_scaled b = Some vb ->
  py_eq a b = true <-> va = vb.
Proof.
  intros Ha Hb.
  assert (E : py_eq a b = match py_cmp a b with Some Eq => true | _ => false end).
  { destruct a as [x|f], b as [y|g]; try reflexivity.
    cbn [py_eq py_cmp]. rewrite FloatAxioms.eqb_spec. reflexivity. }
  rewrite E, (py_cmp_exact a b va vb Ha Hb).
  destruct (Z.compare_spec va vb); split; intros; try lia; try discriminate; reflexivity.
Qed.

(** ** Discounts that are zero or a float *)

Lemma py_add_zero_or_float (a b : num) :
  zero_or_float a -> zero_or_float b ->
  exists c, py_add a b = Ok c /\ zero_or_float c.
Proof.
  unfold zero_or_float.
  intros [-> | [f ->]] [-> | [g ->]]; cbn [py_add arith as_float bind];
    rewrite ?int_to_float_0; cbn [bind]; eauto.
Qed.

Lemma py_sub_zero_or_float (s td : num) (x : float) :
  as_float s = Ok x -> zero_or_float td ->
  exists ta y, py_sub s td = Ok ta /\ as_float ta = Ok y.
Proof.
  intros Hx [-> | [g ->]].
  - destruct s as [z|f]; cbn [py_sub arith as_float bind] in *.
    + do 2 eexists. split; [reflexivity|]. cbn [as_float].
      rewrite Z.sub_0_r. exact Hx.
    + rewrite int_to_float_0. cbn [bind]. do 2 eexists. split; reflexivity.
  - do 2 eexists. split; [apply arith_float_r; exact Hx | reflexivity].
Qed.

Lemma volume_discount_zero_or_float (s : num) (x : float) (n : Z) :
  as_float s = Ok x ->
  exists vd, volume_discount_of s n = Ok vd /\ zero_or_float vd.
Proof.
  intros Hx. unfold volume_discount_of, zero_or_float. destruct (Z.leb 10 n).
  - eexists. split; [apply arith_float_r; exact Hx | eauto].
  - eauto.
Qed.

Lemma zero_rate_discount (s : num) :
  exists ld, py_mul s (NInt 0) = Ok ld /\ zero_or_float ld.
Proof.
  unfold zero_or_float. destruct s as [z|f]; cbn [py_mul arith as_float bind].
  - rewrite Z.mul_0_r. eauto.
  - rewrite int_to_float_0. cbn [bind]. eauto.
Qed.

(** ** Items as documented *)

Lemma py_sum_zero_or_float (xs : list (result num)) (acc : num) :
  Forall (fun x => exists f, x = Ok (NFloat f)) xs ->
  zero_or_float acc ->
  exists s, fold_left (fun acc x => do a <- acc; do v <- x; py_add a v) xs (Ok acc) = Ok s /\
            zero_or_float s.
Proof.
  intros H. revert acc. induction H as [|x xs [f ->] _ IH]; intros acc Hacc.
  - exists acc. split; [reflexivity | assumption].
  - cbn [fold_left bind].
    destruct (py_add_zero_or_float acc (NFloat f) Hacc) as (c & -> & Hc).
    + right. eauto.
    + apply IH. exact Hc.
Qed.

Lemma zero_or_float_as_float (n : num) :
  zero_or_float n -> exists x, as_float n = Ok x.
Proof.
  intros [-> | [f ->]]; cbn [as_float]; [rewrite int_to_float_0|]; eauto.
Qed.

Lemma subtotal_of_documented (items : list LineItem) :
  Forall documented_item items ->
  exists s x, subtotal_of items = Ok s /\ as_float s = Ok x.
Proof.
  intros H. unfold subtotal_of, py_sum.
  destruct (py_sum_zero_or_float
              (map (fun item => py_mul (price item) (NInt (quantity item))) items)
              (NInt 0)) as (s & Hs & Zs).
  - induction H as [|item items' ((f & Hf) & (g & Hg)) _ IH]; cbn [map];
      constructor; [|exact IH].
    rewrite Hf. exists (f * g)%float. apply arith_float_l. exact Hg.
  - left. reflexivity.
  - destruct (zero_or_float_as_float s Zs) as [x Hx]. eauto.
Qed.

(** * The claims *)

(** ** Worked scenarios *)

(** C5.  For [items = [{price: 10, quantity: 12}]] and
    [user = {loyaltyTier: "gold", state: "CA"}] with no tax-rate override,
    [calculate_total] returns subtotal 120.00, discount 30.00 (volume 12.00
    plus loyalty 18.00), tax 7.20 and total 97.20.  The price may be written
    as the int [10] or the float [10.0]. *)
Theorem scenario_gold_CA :
  let user : gmap string pyval :=
    {[ "loyaltyTier" := PyStr "gold"; "state" := PyStr "CA" ]} in
  calculate_total [ {| price := NInt 10; quantity := 12 |} ] user None =
    Ok {| subtotal := NInt 120; discount := NFloat 30.00%float;
          tax := NFloat 7.20%float; total := NFloat 97.20%float |} /\
  calculate_total [ {| price := NFloat 10%float; quantity := 12 |} ] user None =
    Ok {| subtotal := NFloat 120.00%float; discount := NFloat 30.00%float;
          tax := NFloat 7.20%float; total := NFloat 97.20%float |} /\
  py_eq (NInt 120) (NFloat 120.00%float) = true /\
  volume_discount_of (NInt 120) 12 = Ok (NFloat 12.00%float) /\
  loyalty_discount_of (NInt 120) user = Ok (NFloat 18.00%float).
Proof.
  vm_compute. repeat split; reflexivity.
Qed.

(** C2, as the code computes it.  For [items = [{price: 5, quantity: 2}]] and
    [user = {loyaltyTier: "bronze", state: "NY"}] with no override,
    [calculate_total] returns subtotal 10, discount 0.50, tax 0.48 and total
    9.97: the un-rounded total is the float just below 9.975. *)
Theorem scenario_bronze_NY :
  let user : gmap string pyval :=
    {[ "loyaltyTier" := PyStr "bronze"; "state" := PyStr "NY" ]} in
  calculate_total [ {| price := NInt 5; quantity := 2 |} ] user None =
    Ok {| subtotal := NInt 10; discount := NFloat 0.50%float;
          tax := NFloat 0.48%float; total := NFloat 9.97%float |} /\
  calculate_total [ {| price := NFloat 5%float; quantity := 2 |} ] user None =
    Ok {| subtotal := NFloat 10.00%float; discount := NFloat 0.50%float;
          tax := NFloat 0.48%float; total := NFloat 9.97%float |} /\
  py_eq (NInt 10) (NFloat 10.00%float) = true.
Proof.
  vm_compute. repeat split; reflexivity.
Qed.

(** C2 as stated fails: no result of the call has total 9.98. *)
Lemma scenario_bronze_NY_total_not_9_98 :
  ~ exists r,
      calculate_total [ {| price := NInt 5; quantity := 2 |} ]
        {[ "loyaltyTier" := PyStr "bronze"; "state" := PyStr "NY" ]} None = Ok r /\
      py_eq (subtotal r) (NFloat 10.00%float) = true /\
      py_eq (discount r) (NFloat 0.50%float) = true /\
      py_eq (tax r) (NFloat 0.48%float) = true /\
      py_eq (total r) (NFloat 9.98%float) = true.
Proof.
  intros (r & Hr & _ & _ & _ & Ht).
  vm_compute in Hr. injection Hr as <-.
  vm_compute in Ht. discriminate.
Qed.

(** ** [apply_discount] *)

(** C8.  [apply_discount(amount, discount_percent)] is
    [round(amount - amount * (discount_percent / 100), 2)] for every pair of
    numbers; no bound is checked, so on floats it always returns, negative
    percentages and percentages above 100 included; [apply_discount(100, 10)]
    is 90.00 and [apply_discount(50, 0)] is 50.00. *)
Theorem apply_discount_spec :
  (forall amount pct, apply_discount amount pct = apply_discount_formula amount pct) /\
  (forall a p : float,
     apply_discount (NFloat a) (NFloat p) =
       Ok (NFloat (round2_float (a - a * (p / 100))%float))) /\
  apply_discount (NInt 100) (NInt 10) = Ok (NFloat 90.00%float) /\
  apply_discount (NInt 50) (NInt 0) = Ok (NFloat 50.00%float) /\
  apply_discount (NInt 100) (NInt (-10)) = Ok (NFloat 110%float) /\
  apply_discount (NInt 100) (NInt 150) = Ok (NFloat (-50)%float).
Proof.
  split; [reflexivity|]. split; [reflexivity|].
  vm_compute. repeat split; reflexivity.
Qed.

(** ** [validate_order] *)

(** C9.  [validate_order(order_total, minimum)] is true exactly when the
    value of [order_total] is at least the value of [minimum]: the two are
    compared as they are given, int or float, without rounding either (the
    exact values are stated on the common scale [2 ^ 1074]); the function is
    the comparison [>=] itself; the minimum is 10.00 when left out;
    [validate_order(9.99)] is false and [validate_order(10.00)] is true, and
    9.999 is rejected although it rounds to 10.0. *)
Theorem validate_order_spec :
  (forall order_total minimum (vt vm : Z),
     exact_scaled order_total = Some vt -> exact_scaled minimum = Some vm ->
     (validate_order order_total (Some minimum) = true <-> vm <= vt)) /\
  (forall order_total minimum,
     validate_order order_total (Some minimum) = py_ge order_total minimum) /\
  (forall order_total,
     validate_order order_total None =
     validate_order order_total (Some (NFloat 10.00%float))) /\
  exact_scaled (NFloat 10.00%float) = Some (10 * 2 ^ 1074) /\
  validate_order (NFloat 9.99%float) None = false /\
  validate_order (NFloat 10.00%float) None = true /\
  validate_order (NFloat 9.999%float) None = false /\
  validate_order (round2 (NFloat 9.999%float)) None = true.
Proof.
  split.
  - intros a m vt vm Ha Hm. unfold validate_order. cbn [default].
    now apply py_ge_exact.
  - split; [reflexivity|]. split; [reflexivity|].
    vm_compute. repeat split; reflexivity.
Qed.

Lemma validate_order_spec_witness :
  validate_order (NInt 10) (Some (NFloat 9.99%float)) = true <->
  5623870034678907 * 2 ^ (-49 + 1074) <= 10 * 2 ^ 1074.
Proof.
  apply (proj1 validate_order_spec (NInt 10) (NFloat 9.99%float)); reflexivity.
Defined.

(** ** The tax rate *)



(** C10.  The tax-rate argument reaches only the tax and the total: whenever
    the call without an override returns, every call with an override that
    returns has the same subtotal and discount fields, and a call whose
    override is a float, or an int in the range of floats, does return. *)
Theorem tax_rate_frame (items : list LineItem) (user : gmap string pyval)
  (rate : num) (r0 : OrderSummary) :
  calculate_total items user None = Ok r0 ->
  (forall r, calculate_total items user (Some rate) = Ok r ->
     subtotal r = subtotal r0 /\ discount r = discount r0) /\
  (forall g, as_float rate = Ok g ->
     exists r, calculate_total items user (Some rate) = Ok r /\
       subtotal r = subtotal r0 /\ discount r = discount r0).
Proof.
  intros H0.
  apply calculate_total_inv in H0
    as (s & vd & ld & td & rate0 & ta & tx & tot &
        Hs & Hvd & Hld & Htd & Hr0 & Hta & Htx & Htot & ->).
  split.
  - intros r H.
    apply calculate_total_inv in H
      as (s' & vd' & ld' & td' & rate' & ta' & tx' & tot' &
          Hs' & Hvd' & Hld' & Htd' & _ & _ & _ & _ & ->).
    rewrite Hs in Hs'; injection Hs' as <-.
    rewrite Hvd in Hvd'; injection Hvd' as <-.
    rewrite Hld in Hld'; injection Hld' as <-.
    rewrite Htd in Htd'; injection Htd' as <-.
    split; reflexivity.
  - intros g Hg.
    assert (exists x, as_float ta = Ok x) as [x Hx].
    { apply effective_tax_rate_default in Hr0 as [-> | ->];
        apply arith_float_r_inv in Htx as (x & Hx & _); eauto. }
    destruct (arith_returns Z.mul PrimFloat.mul ta rate x g Hx Hg)
      as (tx' & Htx' & Hint & _).
    assert (exists tot', py_add ta tx' = Ok tot') as [tot' Htot'].
    { destruct tx' as [z|f].
      - destruct (Hint z eq_refl) as (p & q & -> & _ & _). eexists; reflexivity.
      - eexists. apply arith_float_r. exact Hx. }
    eexists. split.
    + eapply calculate_total_intro; eauto.
    + split; reflexivity.
Qed.

Lemma tax_rate_frame_witness :
  let items := [ {| price := NInt 5; quantity := 2 |} ] in
  let user : gmap string pyval :=
    {[ "loyaltyTier" := PyStr "bronze"; "state" := PyStr "NY" ]} in
  let r0 := {| subtotal := NInt 10; discount := NFloat 0.5%float;
               tax := NFloat 0.48%float; total := NFloat 9.97%float |} in
  calculate_total items user None = Ok r0 /\
  exists r, calculate_total items user (Some (NFloat 0.2%float)) = Ok r /\
    subtotal r = subtotal r0 /\ discount r = discount r0.
Proof.
  intros items user r0.
  assert (H0 : calculate_total items user None = Ok r0) by (vm_compute; reflexivity).
  split; [exact H0|].
  exact (proj2 (tax_rate_frame items user (NFloat 0.2%float) r0 H0) 0.2%float eq_refl).
Defined.

(** ** Rounding of the four fields *)

Lemma round2_int (n : num) (z : Z) : round2 n = NInt z -> n = NInt z.
Proof. destruct n; simpl; intros H; [assumption | discriminate]. Qed.

(** C4, as the code computes it.  Each field is rounded on its own from the
    un-rounded intermediates of the code: with [s] the un-rounded subtotal,
    [d = volume_discount + loyalty_discount] the un-rounded discount,
    [rate] the effective tax rate and [t = (s - d) * rate] the un-rounded
    tax, the fields are [round(s, 2)], [round(d, 2)], [round(t, 2)] and
    [total = round((s - d) + t, 2)]; neither [d] nor [t] is rounded before
    the total is formed.  When the three fields are ints nothing is rounded
    and [total] is exactly [subtotal - discount + tax]. *)
Theorem total_rounded_from_unrounded items user tax_rate (r : OrderSummary) :
  calculate_total items user tax_rate = Ok r ->
  (exists s volume_discount loyalty_discount d rate net t tot,
     subtotal_of items = Ok s /\
     volume_discount_of s (total_items_of items) = Ok volume_discount /\
     loyalty_discount_of s user = Ok loyalty_discount /\
     py_add volume_discount loyalty_discount = Ok d /\
     effective_tax_rate user tax_rate = Ok rate /\
     py_sub s d = Ok net /\
     py_mul net rate = Ok t /\
     py_add net t = Ok tot /\
     subtotal r = round2 s /\ discount r = round2 d /\
     tax r = round2 t /\ total r = round2 tot) /\
  (forall a b c : Z,
     subtotal r = NInt a -> discount r = NInt b -> tax r = NInt c ->
     total r = NInt (a - b + c)).
Proof.
  intros H.
  apply calculate_total_inv in H
    as (s & vd & ld & td & rate & ta & tx & tot &
        Hs & Hvd & Hld & Htd & Hr & Hta & Htx & Htot & ->).
  split.
  - exists s, vd, ld, td, rate, ta, tx, tot. simpl. auto 15.
  - simpl. intros a b c Ha Hb Hc.
    apply round2_int in Ha, Hb, Hc. subst s td tx.
    injection Hta as <-. injection Htot as <-. reflexivity.
Qed.

Lemma total_rounded_from_unrounded_witness :
  let items := [ {| price := NInt 7; quantity := 3 |} ] in
  let user : gmap string pyval :=
    {[ "loyaltyTier" := PyStr "none"; "state" := PyStr "NY" ]} in
  let r := {| subtotal := NInt 21; discount := NInt 0;
              tax := NInt 42; total := NInt 63 |} in
  calculate_total items user (Some (NInt 2)) = Ok r /\
  total r = NInt (21 - 0 + 42).
Proof.
  intros items user r.
  assert (H : calculate_total items user (Some (NInt 2)) = Ok r)
    by (vm_compute; reflexivity).
  split; [exact H|].
  exact (proj2 (total_rounded_from_unrounded items user _ r H) 21 0 42
           eq_refl eq_refl eq_refl).
Defined.

(** C4 as stated fails: for one item at 53.3625, quantity 10, a silver user
    in NY, the fields are 533.62, 106.73, 21.34 and 448.25, but
    [round(533.62 - 106.73 + 21.34, 2)] is 448.23: two cents away. *)
Lemma total_two_cents_from_rounded_fields :
  let r := {| subtotal := NFloat 533.62%float; discount := NFloat 106.73%float;
              tax := NFloat 21.34%float; total := NFloat 448.25%float |} in
  calculate_total [ {| price := NFloat 53.3625%float; quantity := 10 |} ]
    {[ "loyaltyTier" := PyStr "silver"; "state" := PyStr "NY" ]} None = Ok r /\
  (do a <- py_sub (subtotal r) (discount r);
   do b <- py_add a (tax r);
   Ok (round2 b)) = Ok (NFloat 448.23%float) /\
  (do d <- py_sub (total r) (NFloat 448.23%float);
   Ok (py_ge d (NFloat 0.015%float), py_ge (NFloat 0.01%float) d)) = Ok (true, false).
Proof.
  vm_compute. repeat split; reflexivity.
Qed.

(** ** Discounts *)

Lemma volume_discount_at_threshold (s : num) (n : Z) :
  10 <= n -> volume_discount_of s n = py_mul s (NFloat 0.10%float).
Proof.
  intros H. unfold volume_discount_of.
  destruct (Z.leb_spec 10 n); [reflexivity | lia].
Qed.

Lemma volume_discount_below_threshold (s : num) (n : Z) :
  n < 10 -> volume_discount_of s n = Ok (NInt 0).
Proof.
  intros H. unfold volume_discount_of.
  destruct (Z.leb_spec 10 n); [lia | reflexivity].
Qed.

(** C3, as the code computes it.  When the total quantity is at least 10 the
    volume discount is the un-rounded subtotal times 0.10, and the discount
    field is the rounded sum of that and the loyalty discount. *)
Theorem volume_discount_applied items user tax_rate (r : OrderSummary) :
  10 <= total_items_of items ->
  calculate_total items user tax_rate = Ok r ->
  exists s volume_discount loyalty_discount total_discount,
    subtotal_of items = Ok s /\
    subtotal r = round2 s /\
    py_mul s (NFloat 0.10%float) = Ok volume_discount /\
    loyalty_discount_of s user = Ok loyalty_discount /\
    py_add volume_discount loyalty_discount = Ok total_discount /\
    discount r = round2 total_discount.
Proof.
  intros Hn H.
  apply calculate_total_inv in H
    as (s & vd & ld & td & rate & ta & tx & tot &
        Hs & Hvd & Hld & Htd & _ & _ & _ & _ & ->).
  rewrite volume_discount_at_threshold in Hvd by assumption.
  exists s, vd, ld, td. simpl. auto 10.
Qed.

Lemma volume_discount_applied_witness :
  let items := [ {| price := NFloat 1.03%float; quantity := 11 |} ] in
  let user : gmap string pyval :=
    {[ "loyaltyTier" := PyStr "none"; "state" := PyStr "NY" ]} in
  let r := {| subtotal := NFloat 11.33%float; discount := NFloat 1.13%float;
              tax := NFloat 0.51%float; total := NFloat 10.71%float |} in
  10 <= total_items_of items /\
  calculate_total items user None = Ok r /\
  exists s volume_discount loyalty_discount total_discount,
    subtotal_of items = Ok s /\
    subtotal r = round2 s /\
    py_mul s (NFloat 0.10%float) = Ok volume_discount /\
    loyalty_discount_of s user = Ok loyalty_discount /\
    py_add volume_discount loyalty_discount = Ok total_discount /\
    discount r = round2 total_discount.
Proof.
  intros items user r.
  assert (Hn : 10 <= total_items_of items) by (vm_compute; discriminate).
  assert (H : calculate_total items user None = Ok r) by (vm_compute; reflexivity).
  split; [exact Hn|]. split; [exact H|].
  exact (volume_discount_applied items user None r Hn H).
Defined.

(** C3 as stated fails: 11 items at 1.03 give subtotal 11.33 and discount
    1.13, which is below [11.33 * 0.10 = 1.133]. *)
Lemma discount_below_tenth_of_subtotal :
  let items := [ {| price := NFloat 1.03%float; quantity := 11 |} ] in
  let r := {| subtotal := NFloat 11.33%float; discount := NFloat 1.13%float;
              tax := NFloat 0.51%float; total := NFloat 10.71%float |} in
  10 <= total_items_of items /\
  calculate_total items
    {[ "loyaltyTier" := PyStr "none"; "state" := PyStr "NY" ]} None = Ok r /\
  (do tenth <- py_mul (subtotal r) (NFloat 0.10%float);
   Ok (py_ge (discount r) tenth)) = Ok false.
Proof.
  vm_compute. repeat split; try reflexivity. discriminate.
Qed.

Lemma loyalty_discount_unknown (s : num) (user : gmap string pyval) (ld : num) :
  (forall v, user !! "loyaltyTier" = Some v -> ~ known_tier v) ->
  loyalty_discount_of s user = Ok ld ->
  py_mul s (NInt 0) = Ok ld.
Proof.
  intros Hu H. unfold loyalty_discount_of in H. inv_bind H.
  assert (v = NInt 0) as ->; [|assumption].
  unfold tier_rate in E. inv_bind E. injection E as <-.
  apply dict_get_unknown, Hu.
  unfold subscript in E0. destruct (user !! "loyaltyTier"); congruence.
Qed.

(** Zero volume discount plus a zero-rate loyalty discount on a finite
    subtotal is zero. *)
Lemma zero_discount (s ld td : num) :
  is_finite s = true ->
  py_mul s (NInt 0) = Ok ld ->
  py_add (NInt 0) ld = Ok td ->
  py_eq (round2 td) (NInt 0) = true /\ py_eq ld (NInt 0) = true.
Proof.
  intros Hf Hld Htd. destruct s as [z|f].
  - injection Hld as <-. injection Htd as <-.
    rewrite Z.mul_0_r. split; reflexivity.
  - cbn [py_mul arith as_float bind] in Hld.
    rewrite int_to_float_0 in Hld. cbn [bind] in Hld. injection Hld as <-.
    cbn [py_add arith as_float bind] in Htd.
    rewrite int_to_float_0 in Htd. cbn [bind] in Htd. injection Htd as <-.
    destruct (mul_zero_finite f Hf) as [sg Hz].
    rewrite (add_zero_zero _ _ Hz). split; [reflexivity|].
    unfold py_eq, py_cmp, cmp_int_float. rewrite Hz. reflexivity.
Qed.

(** C6, as the code computes it.  Below 10 items in total and with a tier
    that is none of ["bronze"], ["silver"], ["gold"], the discount field
    equals 0 whenever the subtotal is finite. *)
Theorem no_discount_without_volume_or_tier items user tax_rate (r : OrderSummary) :
  total_items_of items < 10 ->
  (forall v, user !! "loyaltyTier" = Some v -> ~ known_tier v) ->
  calculate_total items user tax_rate = Ok r ->
  is_finite (subtotal r) = true ->
  py_eq (discount r) (NInt 0) = true.
Proof.
  intros Hn Hu H Hf.
  apply calculate_total_inv in H
    as (s & vd & ld & td & rate & ta & tx & tot &
        Hs & Hvd & Hld & Htd & _ & _ & _ & _ & ->).
  simpl in *. apply round2_finite in Hf.
  rewrite volume_discount_below_threshold in Hvd by assumption.
  injection Hvd as <-.
  apply loyalty_discount_unknown in Hld; [|assumption].
  exact (proj1 (zero_discount s ld td Hf Hld Htd)).
Qed.

Lemma no_discount_without_volume_or_tier_witness :
  let items := [ {| price := NFloat 19.99%float; quantity := 3 |};
                 {| price := NInt 4; quantity := 6 |} ] in
  let user : gmap string pyval :=
    {[ "loyaltyTier" := PyStr "Gold"; "state" := PyStr "CA" ]} in
  let r := {| subtotal := NFloat 83.97%float; discount := NFloat 0%float;
              tax := NFloat 6.72%float; total := NFloat 90.69%float |} in
  total_items_of items < 10 /\
  calculate_total items user None = Ok r /\
  py_eq (discount r) (NInt 0) = true.
Proof.
  intros items user r.
  assert (Hn : total_items_of items < 10) by (vm_compute; reflexivity).
  assert (H : calculate_total items user None = Ok r) by (vm_compute; reflexivity).
  split; [exact Hn|]. split; [exact H|].
  apply (no_discount_without_volume_or_tier items user None r Hn); [|exact H|reflexivity].
  intros v Hv. vm_compute in Hv. injection Hv as <-.
  unfold known_tier. intros [?|[?|?]]; discriminate.
Defined.

(** C6 as stated fails: 9 items at 1e308 overflow the subtotal to infinity,
    and the zero-rate loyalty discount [inf * 0] is NaN, which equals
    nothing. *)
Lemma discount_nan_on_overflow :
  let items := [ {| price := NFloat 1e308%float; quantity := 9 |} ] in
  let r := {| subtotal := NFloat infinity; discount := NFloat nan;
              tax := NFloat nan; total := NFloat nan |} in
  total_items_of items < 10 /\
  calculate_total items
    {[ "loyaltyTier" := PyStr "platinum"; "state" := PyStr "NY" ]} None = Ok r /\
  py_eq (discount r) (NInt 0) = false.
Proof.
  vm_compute. repeat split; reflexivity.
Qed.

(** ** A missing or unknown tier *)

(** What is left of [calculate_total] once the discount is known. *)
Lemma tax_and_total_return (ta rate : num) (x g : float) :
  as_float ta = Ok x -> as_float rate = Ok g ->
  exists tx tot, py_mul ta rate = Ok tx /\ py_add ta tx = Ok tot.
Proof.
  intros Hx Hg.
  destruct (arith_returns Z.mul PrimFloat.mul ta rate x g Hx Hg)
    as (tx & Htx & Hint & _).
  exists tx. destruct tx as [z|f].
  - destruct (Hint z eq_refl) as (p & q & -> & _ & _).
    eexists. split; [exact Htx | reflexivity].
  - eexists. split; [exact Htx|]. apply arith_float_r. exact Hx.
Qed.

(** C1, as the code computes it.  When [loyaltyTier] is present in the user
    dict and is not one of the three tiers ([None] and any other string
    included), the rate is the int 0, the loyalty discount is [subtotal * 0]
    (zero for a finite subtotal), and the call returns a summary, provided the
    subtotal and the tax rate are in the range of floats and the state is
    there when no rate is supplied. *)
Theorem unknown_tier_rate_zero items user tax_rate (tier : pyval)
  (s rate : num) (x g : float) :
  user !! "loyaltyTier" = Some tier ->
  ~ known_tier tier ->
  subtotal_of items = Ok s -> as_float s = Ok x ->
  effective_tax_rate user tax_rate = Ok rate -> as_float rate = Ok g ->
  tier_rate user = Ok (NInt 0) /\
  (exists ld, loyalty_discount_of s user = Ok ld /\
     (is_finite s = true -> py_eq ld (NInt 0) = true)) /\
  exists r, calculate_total items user tax_rate = Ok r.
Proof.
  intros Ht Hk Hs Hx Hr Hg.
  pose proof (tier_rate_unknown user tier Ht Hk) as Hrate.
  destruct (zero_rate_discount s) as (ld & Hld & Zld).
  assert (Hld' : loyalty_discount_of s user = Ok ld).
  { unfold loyalty_discount_of. rewrite Hrate. exact Hld. }
  destruct (volume_discount_zero_or_float s x (total_items_of items) Hx)
    as (vd & Hvd & Zvd).
  destruct (py_add_zero_or_float vd ld Zvd Zld) as (td & Htd & Ztd).
  destruct (py_sub_zero_or_float s td x Hx Ztd) as (ta & y & Hta & Hy).
  destruct (tax_and_total_return ta rate y g Hy Hg) as (tx & tot & Htx & Htot).
  split; [exact Hrate|]. split.
  - exists ld. split; [exact Hld'|]. intros Hf.
    destruct (py_add_zero_or_float (NInt 0) ld (or_introl eq_refl) Zld)
      as (td0 & Htd0 & _).
    exact (proj2 (zero_discount s ld td0 Hf Hld Htd0)).
  - eexists. eapply calculate_total_intro; eassumption.
Qed.

Lemma unknown_tier_rate_zero_witness :
  let items := [ {| price := NFloat 19.99%float; quantity := 3 |};
                 {| price := NInt 4; quantity := 6 |} ] in
  let user : gmap string pyval :=
    {[ "loyaltyTier" := PyNone; "state" := PyStr "CA" ]} in
  tier_rate user = Ok (NInt 0) /\
  (exists ld, loyalty_discount_of (NFloat 83.97%float) user = Ok ld /\
     (is_finite (NFloat 83.97%float) = true -> py_eq ld (NInt 0) = true)) /\
  exists r, calculate_total items user None = Ok r.
Proof.
  intros items user.
  apply (unknown_tier_rate_zero items user None PyNone
           (NFloat 83.97%float) (NFloat 0.08%float) 83.97%float 0.08%float).
  - reflexivity.
  - unfold known_tier. intros [?|[?|?]]; discriminate.
  - vm_compute. reflexivity.
  - reflexivity.
  - vm_compute. reflexivity.
  - reflexivity.
Defined.

(** C1 as stated fails: a user dict without the key [loyaltyTier] makes the
    call raise [KeyError]. *)
Lemma missing_tier_raises_KeyError :
  calculate_total [ {| price := NInt 5; quantity := 2 |} ]
    {[ "state" := PyStr "NY" ]} None = Raise (KeyError "loyaltyTier").
Proof.
  vm_compute. reflexivity.
Qed.

(** * Further properties *)

(** ** What can be raised *)

Lemma bind_Raise {A B : Type} (r : result A) (k : A -> result B) (e : exn) :
  bind r k = Raise e -> r = Raise e \/ exists a, r = Ok a /\ k a = Raise e.
Proof.
  destruct r as [a|e']; simpl; intros H; [right; eauto | left; congruence].
Qed.

Lemma int_to_float_raise (z : Z) (e : exn) :
  int_to_float z = Raise e -> e = OverflowError.
Proof.
  unfold int_to_float.
  destruct (binary_normalize prec emax z 0 false); congruence.
Qed.

Lemma as_float_raise (n : num) (e : exn) :
  as_float n = Raise e -> e = OverflowError.
Proof.
  destruct n; simpl; [apply int_to_float_raise | discriminate].
Qed.

Lemma arith_raise iop fop (a b : num) (e : exn) :
  arith iop fop a b = Raise e -> e = OverflowError.
Proof.
  assert (G : (do x <- as_float a; do y <- as_float b; Ok (NFloat (fop x y)))
              = Raise e -> e = OverflowError).
  { intros H. apply bind_Raise in H as [H | (x & _ & H)];
      [exact (as_float_raise _ _ H)|].
    apply bind_Raise in H as [H | (y & _ & H)];
      [exact (as_float_raise _ _ H) | discriminate]. }
  destruct a, b; cbn [arith]; try exact G. discriminate.
Qed.

(** ** The two keys of the user dict *)

Lemma tier_rate_values (user : gmap string pyval) (rate : num) :
  tier_rate user = Ok rate ->
  rate = NInt 0 \/ exists c, rate = NFloat c.
Proof.
  unfold tier_rate. intros H. inv_bind H. injection H as <-.
  destruct v as [|s|n]; cbn [dict_get]; auto.
  rewrite tier_discounts_lookup. repeat case_decide; eauto.
Qed.

Lemma loyalty_discount_returns (s : num) (x : float) (user : gmap string pyval)
  (tier : pyval) :
  as_float s = Ok x -> user !! "loyaltyTier" = Some tier ->
  exists ld, loyalty_discount_of s user = Ok ld /\ zero_or_float ld.
Proof.
  intros Hx Ht. unfold loyalty_discount_of.
  destruct (tier_rate user) as [rate|e] eqn:Hr.
  - cbn [bind]. destruct (tier_rate_values user rate Hr) as [-> | [c ->]].
    + apply zero_rate_discount.
    + eexists. split; [apply arith_float_r; exact Hx|]. right. eauto.
  - unfold tier_rate, subscript in Hr. rewrite Ht in Hr. discriminate.
Qed.

(** X2.  The user dict must hold [loyaltyTier], and [state] unless a tax rate is
    supplied: a call that returns had them, and when the subtotal is in the
    range of floats a missing key raises [KeyError] for that key, the tier
    first. *)
Theorem user_keys_required items (user : gmap string pyval) tax_rate :
  (forall r, calculate_total items user tax_rate = Ok r ->
     is_Some (user !! "loyaltyTier") /\
     (tax_rate = None -> is_Some (user !! "state"))) /\
  (forall s x, subtotal_of items = Ok s -> as_float s = Ok x ->
     user !! "loyaltyTier" = None ->
     calculate_total items user tax_rate = Raise (KeyError "loyaltyTier")) /\
  (forall s x, subtotal_of items = Ok s -> as_float s = Ok x ->
     is_Some (user !! "loyaltyTier") -> user !! "state" = None ->
     tax_rate = None ->
     calculate_total items user tax_rate = Raise (KeyError "state")).
Proof.
  split; [|split].
  - intros r H.
    apply calculate_total_inv in H
      as (s & vd & ld & td & rate & ta & tx & tot &
          _ & _ & Hld & _ & Hr & _).
    split.
    + unfold loyalty_discount_of in Hld. inv_bind Hld.
      unfold tier_rate in E. inv_bind E. unfold subscript in E0.
      destruct (user !! "loyaltyTier"); [eauto | discriminate].
    + intros ->. unfold effective_tax_rate in Hr. inv_bind Hr.
      unfold subscript in E. destruct (user !! "state"); [eauto | discriminate].
  - intros s x Hs Hx Hn. unfold calculate_total. rewrite Hs. cbn [bind].
    destruct (volume_discount_zero_or_float s x (total_items_of items) Hx)
      as (vd & -> & _). cbn [bind].
    unfold loyalty_discount_of, tier_rate, subscript. rewrite Hn. reflexivity.
  - intros s x Hs Hx [tier Ht] Hn ->. unfold calculate_total. rewrite Hs. cbn [bind].
    destruct (volume_discount_zero_or_float s x (total_items_of items) Hx)
      as (vd & -> & Zvd). cbn [bind].
    destruct (loyalty_discount_returns s x user tier Hx Ht) as (ld & -> & Zld).
    cbn [bind].
    destruct (py_add_zero_or_float vd ld Zvd Zld) as (td & -> & _). cbn [bind].
    unfold effective_tax_rate, subscript. rewrite Hn. reflexivity.
Qed.

Lemma user_keys_required_witness :
  calculate_total [ {| price := NFloat 19.99%float; quantity := 3 |} ]
    {[ "state" := PyStr "CA" ]} (Some (NFloat 0.07%float)) =
  Raise (KeyError "loyaltyTier").
Proof.
  apply (proj1 (proj2 (user_keys_required _ _ _))
           (NFloat 59.97%float) 59.97%float); reflexivity.
Defined.

(** ** Keys that are not read *)

Lemma calculate_total_user_keys items (user user' : gmap string pyval) tax_rate :
  user' !! "loyaltyTier" = user !! "loyaltyTier" ->
  user' !! "state" = user !! "state" ->
  calculate_total items user' tax_rate = calculate_total items user tax_rate.
Proof.
  intros H1 H2.
  unfold calculate_total, loyalty_discount_of, tier_rate, effective_tax_rate, subscript.
  rewrite H1, H2. reflexivity.
Qed.

(** X3.  Nothing but [loyaltyTier] and [state] is read from the user dict: setting
    or removing any other key changes neither the result nor the error. *)
Theorem other_user_keys_ignored items (user : gmap string pyval) tax_rate
  (k : string) (v : pyval) :
  k <> "loyaltyTier" -> k <> "state" ->
  calculate_total items (<[k := v]> user) tax_rate =
    calculate_total items user tax_rate /\
  calculate_total items (delete k user) tax_rate =
    calculate_total items user tax_rate.
Proof.
  intros H1 H2. split; apply calculate_total_user_keys.
  - now apply lookup_insert_ne.
  - now apply lookup_insert_ne.
  - now apply lookup_delete_ne.
  - now apply lookup_delete_ne.
Qed.

Lemma other_user_keys_ignored_witness :
  let items := [ {| price := NFloat 19.99%float; quantity := 3 |} ] in
  let user : gmap string pyval :=
    {[ "loyaltyTier" := PyStr "gold"; "state" := PyStr "CA" ]} in
  calculate_total items (<["email" := PyStr "a@b.c"]> user) None =
    calculate_total items user None /\
  calculate_total items (delete "email" user) None =
    calculate_total items user None.
Proof.
  intros items user.
  apply (other_user_keys_ignored items user None "email" (PyStr "a@b.c"));
    discriminate.
Defined.

(** ** The empty order *)

Lemma tier_rate_cases (user : gmap string pyval) (rate : num) :
  tier_rate user = Ok rate ->
  rate = NInt 0 \/ rate = NFloat 0.05%float \/
  rate = NFloat 0.10%float \/ rate = NFloat 0.15%float.
Proof.
  unfold tier_rate. intros H. inv_bind H. injection H as <-.
  destruct v as [|s|n]; cbn [dict_get]; auto.
  rewrite tier_discounts_lookup. repeat case_decide; auto.
Qed.

Lemma zero_or_nan_mul (g : float) : zero_or_nan (0 * g)%float.
Proof.
  unfold zero_or_nan. rewrite mul_spec.
  change (Prim2SF 0%float) with (S754_zero false).
  destruct (Prim2SF g) as [s|s| |s m e]; cbn; eauto.
Qed.

Lemma zero_or_nan_add (f : float) : zero_or_nan f -> zero_or_nan (0 + f)%float.
Proof.
  unfold zero_or_nan. rewrite add_spec.
  change (Prim2SF 0%float) with (S754_zero false).
  intros [[s ->] | ->]; cbn; [destruct s|]; eauto.
Qed.

Lemma zero_or_nan_round2 (f : float) : zero_or_nan f -> round2_float f = f.
Proof.
  unfold zero_or_nan, round2_float. intros [[s ->] | ->]; reflexivity.
Qed.

Lemma zero_or_nan_rejected (f : float) :
  zero_or_nan f -> validate_order (NFloat f) None = false.
Proof.
  unfold validate_order, py_ge. cbn [default]. rewrite FloatAxioms.leb_spec.
  intros [[s ->] | ->]; reflexivity.
Qed.

(** What the tax and the total of an order with a zero taxable amount are. *)
Lemma zero_taxable (ta rate tx tot : num) :
  ta = NInt 0 \/ ta = NFloat 0%float ->
  py_mul ta rate = Ok tx -> py_add ta tx = Ok tot ->
  (tx = NInt 0 /\ tot = NInt 0) \/
  (exists f g, tx = NFloat f /\ tot = NFloat g /\ zero_or_nan f /\ zero_or_nan g).
Proof.
  intros [-> | ->] Htx Htot.
  - destruct rate as [z|g]; cbn [py_mul arith as_float bind] in Htx.
    + injection Htx as <-. injection Htot as <-. left. split; reflexivity.
    + rewrite int_to_float_0 in Htx. cbn [bind] in Htx. injection Htx as <-.
      cbn [py_add arith as_float bind] in Htot.
      rewrite int_to_float_0 in Htot. cbn [bind] in Htot. injection Htot as <-.
      right. do 2 eexists. repeat split; [apply zero_or_nan_mul|].
      apply zero_or_nan_add, zero_or_nan_mul.
  - assert (exists g, tx = NFloat (0 * g)) as [g ->].
    { destruct rate as [z|g]; cbn [py_mul arith as_float bind] in Htx.
      - destruct (int_to_float z) as [g|]; [|discriminate].
        cbn [bind] in Htx. injection Htx as <-. eauto.
      - injection Htx as <-. eauto. }
    injection Htot as <-.
    right. do 2 eexists. repeat split; [apply zero_or_nan_mul|].
    apply zero_or_nan_add, zero_or_nan_mul.
Qed.

Lemma zero_or_nan_default_rate (f : float) :
  f = (0 * 0.08)%float \/ f = (0 * 0.05)%float ->
  py_eq (NFloat f) (NInt 0) = true /\ py_eq (NFloat (0 + f)) (NInt 0) = true.
Proof.
  intros [-> | ->]; vm_compute; split; reflexivity.
Qed.

(** X4.  An order without items has subtotal 0 and no discount, and its total
    never reaches the default minimum of [validate_order]; without a tax-rate
    override its tax and total are 0 as well. *)
Theorem empty_order (user : gmap string pyval) tax_rate (r : OrderSummary) :
  calculate_total [] user tax_rate = Ok r ->
  subtotal r = NInt 0 /\
  py_eq (discount r) (NInt 0) = true /\
  validate_order (total r) None = false /\
  (tax_rate = None ->
   py_eq (tax r) (NInt 0) = true /\ py_eq (total r) (NInt 0) = true).
Proof.
  intros H.
  apply calculate_total_inv in H
    as (s & vd & ld & td & rate & ta & tx & tot &
        Hs & Hvd & Hld & Htd & Hr & Hta & Htx & Htot & ->).
  cbn [subtotal discount tax total].
  vm_compute in Hs. injection Hs as <-.
  vm_compute in Hvd. injection Hvd as <-.
  unfold loyalty_discount_of in Hld. inv_bind Hld.
  assert (Hzero : (td = NInt 0 \/ td = NFloat 0%float) /\
                  (ta = NInt 0 \/ ta = NFloat 0%float)).
  { destruct (tier_rate_cases user v E) as [-> | [-> | [-> | ->]]];
      vm_compute in Hld; injection Hld as <-;
      vm_compute in Htd; injection Htd as <-;
      vm_compute in Hta; injection Hta as <-; auto. }
  destruct Hzero as [Ztd Zta].
  split; [reflexivity|]. split; [destruct Ztd as [-> | ->]; reflexivity|].
  split.
  - destruct (zero_taxable ta rate tx tot Zta Htx Htot)
      as [[_ ->] | (f & g & _ & -> & _ & Zg)].
    + reflexivity.
    + cbn [round2]. rewrite (zero_or_nan_round2 g Zg).
      exact (zero_or_nan_rejected g Zg).
  - intros ->. apply effective_tax_rate_default in Hr.
    destruct Zta as [-> | ->]; destruct Hr as [-> | ->];
      vm_compute in Htx; injection Htx as <-;
      vm_compute in Htot; injection Htot as <-;
      vm_compute; split; reflexivity.
Qed.

Lemma empty_order_witness :
  let user : gmap string pyval :=
    {[ "loyaltyTier" := PyStr "gold"; "state" := PyStr "CA" ]} in
  let r := {| subtotal := NInt 0; discount := NFloat 0%float;
              tax := NFloat 0%float; total := NFloat 0%float |} in
  calculate_total [] user None = Ok r /\
  subtotal r = NInt 0 /\
  py_eq (discount r) (NInt 0) = true /\
  validate_order (total r) None = false /\
  ((None : option num) = None ->
   py_eq (tax r) (NInt 0) = true /\ py_eq (total r) (NInt 0) = true).
Proof.
  intros user r.
  assert (H : calculate_total [] user None = Ok r) by (vm_compute; reflexivity).
  split; [exact H|]. exact (empty_order user None r H).
Defined.

(** ** Whole-number prices *)

Lemma py_sum_int_priced (items : list LineItem) (a : Z) :
  Forall int_priced items ->
  fold_left (fun acc x => do a <- acc; do v <- x; py_add a v)
    (map (fun item => py_mul (price item) (NInt (quantity item))) items)
    (Ok (NInt a)) =
  Ok (NInt (fold_left Z.add (map int_line items) a)).
Proof.
  intros H. revert a. induction H as [|item items [p Hp] _ IH]; intros a.
  - reflexivity.
  - cbn [map fold_left]. unfold int_line at 2. rewrite Hp.
    cbn [py_mul py_add arith bind]. apply IH.
Qed.

Lemma calculate_total_items_ext items items' (user : gmap string pyval) tax_rate :
  subtotal_of items = subtotal_of items' ->
  total_items_of items = total_items_of items' ->
  calculate_total items user tax_rate = calculate_total items' user tax_rate.
Proof.
  intros H1 H2. unfold calculate_total. rewrite H1, H2. reflexivity.
Qed.

Lemma fold_left_add_shift (l : list Z) (a : Z) :
  fold_left Z.add l a = a + fold_left Z.add l 0.
Proof.
  revert a. induction l as [|x l IH]; intros a; cbn [fold_left].
  - lia.
  - rewrite IH, (IH (0 + x)). lia.
Qed.

Lemma fold_left_add_Permutation (l l' : list Z) :
  Permutation l l' -> fold_left Z.add l 0 = fold_left Z.add l' 0.
Proof.
  induction 1 as [|x l l' _ IH|x y l|l l' l'' _ IH1 _ IH2]; cbn [fold_left].
  - reflexivity.
  - rewrite (fold_left_add_shift l), (fold_left_add_shift l'), IH. reflexivity.
  - rewrite (fold_left_add_shift l (0 + y + x)), (fold_left_add_shift l (0 + x + y)). lia.
  - congruence.
Qed.

(** X6.  With int prices the subtotal is the exact int sum of [price * quantity],
    whatever its size: summing never overflows and nothing is rounded. *)
Theorem int_priced_subtotal_exact (items : list LineItem) :
  Forall int_priced items ->
  subtotal_of items = Ok (NInt (int_subtotal items)) /\
  forall (user : gmap string pyval) tax_rate r,
    calculate_total items user tax_rate = Ok r ->
    subtotal r = NInt (int_subtotal items).
Proof.
  intros H.
  assert (Hs : subtotal_of items = Ok (NInt (int_subtotal items)))
    by (apply py_sum_int_priced; exact H).
  split; [exact Hs|]. intros user tax_rate r Hr.
  apply calculate_total_inv in Hr
    as (s & vd & ld & td & rate & ta & tx & tot & Hs' & _ & _ & _ & _ & _ & _ & _ & ->).
  rewrite Hs in Hs'. injection Hs' as <-. reflexivity.
Qed.

Lemma int_priced_subtotal_exact_witness :
  let items := [ {| price := NInt (10 ^ 400); quantity := 3 |};
                 {| price := NInt 7; quantity := 2 |} ] in
  subtotal_of items = Ok (NInt (3 * 10 ^ 400 + 14)) /\
  forall (user : gmap string pyval) tax_rate r,
    calculate_total items user tax_rate = Ok r ->
    subtotal r = NInt (int_subtotal items).
Proof.
  intros items.
  refine (int_priced_subtotal_exact items _).
  repeat constructor; eexists; reflexivity.
Defined.

(** X7.  With int prices the order of the items does not matter. *)
Theorem int_priced_order_irrelevant items items' (user : gmap string pyval) tax_rate :
  Permutation items items' ->
  Forall int_priced items ->
  calculate_total items user tax_rate = calculate_total items' user tax_rate.
Proof.
  intros HP HF.
  assert (HF' : Forall int_priced items').
  { exact (Permutation_Forall HP HF). }
  apply calculate_total_items_ext.
  - unfold subtotal_of, py_sum.
    rewrite (py_sum_int_priced items 0 HF), (py_sum_int_priced items' 0 HF').
    do 2 f_equal. apply fold_left_add_Permutation, Permutation_map, HP.
  - unfold total_items_of. apply fold_left_add_Permutation, Permutation_map, HP.
Qed.

Lemma int_priced_order_irrelevant_witness :
  let a := {| price := NInt 5; quantity := 2 |} in
  let b := {| price := NInt 7; quantity := 9 |} in
  let user : gmap string pyval :=
    {[ "loyaltyTier" := PyStr "gold"; "state" := PyStr "CA" ]} in
  calculate_total [a; b] user None = calculate_total [b; a] user None.
Proof.
  intros a b user.
  apply int_priced_order_irrelevant.
  - apply perm_swap.
  - repeat constructor; eexists; reflexivity.
Defined.

(** ** A tax rate of zero *)

Lemma finite_add_mul_zero (f : float) :
  float_finite (f + f * 0)%float = true -> float_finite f = true.
Proof.
  unfold float_finite. rewrite add_spec, mul_spec.
  change (Prim2SF 0%float) with (S754_zero false).
  destruct (Prim2SF f) as [s|s| |s m e]; cbn; auto.
Qed.

Lemma zero_product_eq_zero (f : float) :
  float_finite f = true -> py_eq (round2 (NFloat (f * 0)%float)) (NInt 0) = true.
Proof.
  intros Hf. destruct (mul_zero_finite f Hf) as [s Hz].
  cbn [round2]. unfold round2_float. rewrite Hz.
  unfold py_eq, py_cmp, cmp_int_float. rewrite Hz. reflexivity.
Qed.

(** X8.  A supplied tax rate of zero (the int [0] or the float [0.0]) is used as
    it is, not replaced by the state's default: whenever the total is finite
    the tax field equals 0. *)
Theorem zero_tax_rate_honoured items (user : gmap string pyval) (rate : num)
  (r : OrderSummary) :
  rate = NInt 0 \/ rate = NFloat 0%float ->
  calculate_total items user (Some rate) = Ok r ->
  is_finite (total r) = true ->
  py_eq (tax r) (NInt 0) = true.
Proof.
  intros Hrate H Hfin.
  apply calculate_total_inv in H
    as (s & vd & ld & td & rate' & ta & tx & tot &
        _ & _ & _ & _ & Hr & _ & Htx & Htot & ->).
  injection Hr as <-. cbn [tax total] in *. apply round2_finite in Hfin.
  assert (Hint : forall z, ta = NInt z -> rate = NInt 0 ->
                 py_eq (round2 tx) (NInt 0) = true).
  { intros z -> ->. injection Htx as <-. cbn [round2]. rewrite Z.mul_0_r. reflexivity. }
  assert (Hfl : forall f, as_float ta = Ok f -> tx = NFloat (f * 0)%float ->
                py_eq (round2 tx) (NInt 0) = true).
  { intros f Hf ->. apply zero_product_eq_zero, finite_add_mul_zero.
    rewrite (arith_float_r Z.add PrimFloat.add ta f _ Hf) in Htot.
    injection Htot as <-. exact Hfin. }
  destruct ta as [z|f], Hrate as [-> | ->]; cbn [py_mul arith as_float bind] in Htx.
  - now apply (Hint z).
  - destruct (int_to_float z) as [g|] eqn:Hg; [|discriminate].
    cbn [bind] in Htx. injection Htx as <-. now apply (Hfl g).
  - rewrite int_to_float_0 in Htx. cbn [bind] in Htx. injection Htx as <-.
    now apply (Hfl f).
  - injection Htx as <-. now apply (Hfl f).
Qed.

Lemma zero_tax_rate_honoured_witness :
  let items := [ {| price := NFloat 19.99%float; quantity := 3 |} ] in
  let user : gmap string pyval :=
    {[ "loyaltyTier" := PyStr "gold"; "state" := PyStr "CA" ]} in
  let r := {| subtotal := NFloat 59.97%float; discount := NFloat 9%float;
              tax := NFloat 0%float; total := NFloat 50.97%float |} in
  calculate_total items user (Some (NInt 0)) = Ok r /\
  py_eq (tax r) (NInt 0) = true.
Proof.
  intros items user r.
  assert (H : calculate_total items user (Some (NInt 0)) = Ok r)
    by (vm_compute; reflexivity).
  split; [exact H|].
  exact (zero_tax_rate_honoured items user (NInt 0) r (or_introl eq_refl) H eq_refl).
Defined.

(** ** [apply_discount]: outcomes *)

Lemma int_to_float_100 : int_to_float 100 = Ok 100%float.
Proof. reflexivity. Qed.

(** Dividing by the int [100] gives a float, or overflows. *)
Lemma py_truediv_100 (p : num) :
  (exists f, py_truediv p (NInt 100) = Ok (NFloat f)) \/
  py_truediv p (NInt 100) = Raise OverflowError.
Proof.
  destruct p as [x|f]; unfold py_truediv.
  - change (Z.eqb 100 0) with false. cbv iota.
    destruct (SFdiv prec emax (Z2SF_exact (100 <? 0)%Z x) (Z2SF_exact false 100));
      eauto.
  - cbn [as_float bind]. rewrite int_to_float_100. cbn [bind].
    change (PrimFloat.eqb 100 0) with false. cbv iota. eauto.
Qed.

Lemma py_truediv_float_100 (p : float) :
  py_truediv (NFloat p) (NInt 100) = Ok (NFloat (p / 100)%float).
Proof. reflexivity. Qed.

Lemma arith_float_result iop fop (a c : num) (y : float) :
  arith iop fop a (NFloat y) = Ok c -> exists f, c = NFloat f.
Proof.
  intros H. apply arith_float_r_inv in H as (x & _ & ->). eauto.
Qed.

(** X10.  [apply_discount] returns a float, also on two ints, and its only failure
    is [OverflowError]: the divisor is the constant 100, so there is no
    [ZeroDivisionError].  With a float percentage and an amount in the range
    of floats it returns the rounded [amount - amount * (percent / 100)]
    computed on floats. *)
Theorem apply_discount_outcome (amount discount_percent : num) :
  (forall r, apply_discount amount discount_percent = Ok r ->
     exists f, r = NFloat f) /\
  (forall e, apply_discount amount discount_percent = Raise e ->
     e = OverflowError) /\
  (forall x p, as_float amount = Ok x -> discount_percent = NFloat p ->
     apply_discount amount discount_percent =
       Ok (NFloat (round2_float (x - x * (p / 100))%float))).
Proof.
  split; [|split].
  - unfold apply_discount. intros r H.
    inv_bind H. inv_bind H. inv_bind H. injection H as <-.
    destruct (py_truediv_100 discount_percent) as [[q Hq] | Hq];
      rewrite Hq in E; [injection E as <- | discriminate].
    apply arith_float_result in E0 as [d ->].
    apply arith_float_result in E1 as [c ->]. cbn [round2]. eauto.
  - unfold apply_discount. intros e H.
    apply bind_Raise in H as [H | (q & _ & H)].
    { destruct (py_truediv_100 discount_percent) as [[q Hq] | Hq];
        rewrite Hq in H; congruence. }
    apply bind_Raise in H as [H | (d & _ & H)]; [exact (arith_raise _ _ _ _ _ H)|].
    apply bind_Raise in H as [H | (c & _ & H)]; [exact (arith_raise _ _ _ _ _ H)|].
    discriminate.
  - intros x p Hx ->. unfold apply_discount.
    rewrite py_truediv_float_100. cbn [bind].
    unfold py_mul. rewrite (arith_float_r _ _ amount x _ Hx). cbn [bind].
    unfold py_sub. rewrite (arith_float_r _ _ amount x _ Hx). reflexivity.
Qed.

Lemma apply_discount_outcome_witness :
  apply_discount (NInt 80) (NFloat 12.5%float) = Ok (NFloat 70%float).
Proof.
  exact (proj2 (proj2 (apply_discount_outcome (NInt 80) (NFloat 12.5%float)))
           80%float 12.5%float eq_refl eq_refl).
Defined.

Lemma sub_signed_zero (x z : float) (s : bool) :
  Prim2SF z = S754_zero s ->
  (x - z)%float = x \/
  (exists a, Prim2SF x = S754_zero a) /\ (exists b, Prim2SF (x - z)%float = S754_zero b).
Proof.
  intros Hz. destruct (Prim2SF x) as [a|a| |a m e] eqn:Hx.
  - right. split; [eauto|]. rewrite sub_spec, Hx, Hz.
    destruct a, s; cbn; eauto.
  - left. apply Prim2SF_inj. rewrite sub_spec, Hx, Hz. reflexivity.
  - left. apply Prim2SF_inj. rewrite sub_spec, Hx, Hz. reflexivity.
  - left. apply Prim2SF_inj. rewrite sub_spec, Hx, Hz. reflexivity.
Qed.

(** X11.  A discount of 0 percent (the int [0] or the float [0.0]) only rounds a
    finite float amount: the result is [round(amount, 2)], up to the sign of
    a zero. *)
Theorem apply_discount_zero_percent (a : float) (pct : num) :
  pct = NInt 0 \/ pct = NFloat 0%float ->
  float_finite a = true ->
  exists r, apply_discount (NFloat a) pct = Ok (NFloat r) /\
    (r = round2_float a \/
     py_eq (NFloat r) (NInt 0) = true /\ py_eq (NFloat a) (NInt 0) = true).
Proof.
  intros Hp Hf.
  assert (H : apply_discount (NFloat a) pct =
              Ok (NFloat (round2_float (a - a * 0)%float))).
  { destruct Hp as [-> | ->]; reflexivity. }
  rewrite H. eexists. split; [reflexivity|].
  destruct (mul_zero_finite a Hf) as [s Hz].
  destruct (sub_signed_zero a _ s Hz) as [-> | [[sa Ha] [sb Hb]]]; [left; reflexivity|].
  right. unfold round2_float. rewrite Hb.
  unfold py_eq, py_cmp, cmp_int_float. rewrite Ha, Hb. split; reflexivity.
Qed.

Lemma apply_discount_zero_percent_witness :
  exists r, apply_discount (NFloat 19.999%float) (NInt 0) = Ok (NFloat r) /\
    (r = round2_float 19.999%float \/
     py_eq (NFloat r) (NInt 0) = true /\ py_eq (NFloat 19.999%float) (NInt 0) = true).
Proof.
  apply apply_discount_zero_percent; [left|]; reflexivity.
Defined.

(** ** The order behind the comparisons *)

Lemma ext_compare_antisym (x y : ext) :
  ext_compare y x = CompOpp (ext_compare x y).
Proof.
  destruct x, y; cbn; try reflexivity. apply Z.compare_antisym.
Qed.

Lemma SFcompare_ext (x y : spec_float) :
  valid_binary x = true -> valid_binary y = true ->
  SFcompare x y =
    match SF_ext x, SF_ext y with
    | Some vx, Some vy => Some (ext_compare vx vy)
    | _, _ => None
    end.
Proof.
  intros Hx Hy.
  destruct (SF_ext x) as [vx|] eqn:Ex, (SF_ext y) as [vy|] eqn:Ey.
  - destruct x as [sx|sx| |sx mx ex]; try discriminate;
    destruct y as [sy|sy| |sy my ey]; try discriminate;
    cbn [SF_ext SF_scaled option_map] in Ex, Ey;
    injection Ex as <-; injection Ey as <-;
    try (erewrite SFcompare_exact by (try eassumption; reflexivity); reflexivity);
    cbn [SFcompare]; try (destruct sx, sy; reflexivity);
    try (destruct sx; reflexivity); destruct sy; reflexivity.
  - destruct y; try discriminate. destruct x; reflexivity.
  - destruct x; try discriminate. reflexivity.
  - destruct x; try discriminate. reflexivity.
Qed.

Lemma cmp_int_float_ext (z : Z) (f : float) :
  cmp_int_float z f =
    match SF_ext (Prim2SF f) with
    | Some v => Some (ext_compare (Fin (z * 2 ^ 1074)) v)
    | None => None
    end.
Proof.
  destruct (SF_scaled (Prim2SF f)) as [vf|] eqn:E.
  - rewrite (cmp_int_float_exact z f vf E).
    destruct (Prim2SF f); try discriminate; cbn [SF_ext]; rewrite E; reflexivity.
  - unfold cmp_int_float. destruct (Prim2SF f) as [s|s| |s m e]; try discriminate.
    + destruct s; reflexivity.
    + reflexivity.
Qed.

Lemma py_cmp_value (a b : num) : py_cmp a b = value_cmp a b.
Proof.
  unfold value_cmp. destruct a as [x|f], b as [y|g]; cbn [py_cmp ext_value].
  - cbn [ext_compare]. f_equal. apply Zmult_compare_compat_r. reflexivity.
  - apply cmp_int_float_ext.
  - rewrite cmp_int_float_ext. destruct (SF_ext (Prim2SF f)) as [v|]; [|reflexivity].
    cbn [option_map]. now rewrite <- ext_compare_antisym.
  - apply SFcompare_ext; apply Prim2SF_valid.
Qed.

Lemma py_ge_value (a b : num) :
  py_ge a b = match value_cmp a b with Some (Gt | Eq) => true | _ => false end.
Proof.
  rewrite <- py_cmp_value. destruct a as [x|f], b as [y|g]; try reflexivity.
  cbn [py_ge]. rewrite FloatAxioms.leb_spec. unfold SFleb.
  change (SFcompare (Prim2SF g) (Prim2SF f)) with (py_cmp (NFloat g) (NFloat f)).
  rewrite !py_cmp_value. unfold value_cmp.
  destruct (ext_value (NFloat g)) as [vg|], (ext_value (NFloat f)) as [vf|];
    try reflexivity.
  rewrite (ext_compare_antisym vg vf). destruct (ext_compare vg vf); reflexivity.
Qed.

Lemma ext_compare_ge_trans (x y z : ext) :
  ext_compare x y <> Lt -> ext_compare y z <> Lt -> ext_compare x z <> Lt.
Proof.
  destruct x, y, z; cbn; try congruence.
  rewrite !Z.compare_ge_iff. lia.
Qed.

Lemma py_ge_trans (a b c : num) :
  py_ge a b = true -> py_ge b c = true -> py_ge a c = true.
Proof.
  rewrite !py_ge_value. unfold value_cmp.
  destruct (ext_value a) as [x|], (ext_value b) as [y|], (ext_value c) as [z|];
    try discriminate.
  intros H1 H2. pose proof (ext_compare_ge_trans x y z) as H.
  destruct (ext_compare x y), (ext_compare y z), (ext_compare x z);
    try reflexivity; try discriminate; exfalso; apply H; congruence.
Qed.

(** ** [validate_order]: order and special values *)

(** X12.  [validate_order] is monotone: a total at least as large as one that
    validates also validates, and lowering the minimum keeps an order valid.
    This holds for ints, floats and infinities alike. *)
Theorem validate_order_monotone (order_total order_total' : num)
  (minimum : option num) :
  validate_order order_total minimum = true ->
  py_ge order_total' order_total = true ->
  validate_order order_total' minimum = true /\
  forall minimum' : num,
    py_ge (default (NFloat 10.00%float) minimum) minimum' = true ->
    validate_order order_total' (Some minimum') = true.
Proof.
  unfold validate_order. intros H1 H2.
  pose proof (py_ge_trans _ _ _ H2 H1) as H3.
  split; [exact H3|]. intros m' H4.
  change (default (NFloat 10.00%float) (Some m')) with m'.
  exact (py_ge_trans _ _ _ H3 H4).
Qed.

Lemma validate_order_monotone_witness :
  validate_order (NFloat 12.5%float) None = true /\
  py_ge (NInt 13) (NFloat 12.5%float) = true /\
  validate_order (NInt 13) None = true /\
  forall minimum' : num,
    py_ge (NFloat 10.00%float) minimum' = true ->
    validate_order (NInt 13) (Some minimum') = true.
Proof.
  assert (H1 : validate_order (NFloat 12.5%float) None = true) by reflexivity.
  assert (H2 : py_ge (NInt 13) (NFloat 12.5%float) = true) by reflexivity.
  split; [exact H1|]. split; [exact H2|].
  exact (validate_order_monotone (NFloat 12.5%float) (NInt 13) None H1 H2).
Defined.

(** X13.  A NaN never validates, as a total or as a minimum; an infinite total
    validates against every minimum that is not NaN. *)
Theorem validate_order_special_values :
  (forall minimum : option num, validate_order (NFloat nan) minimum = false) /\
  (forall order_total : num,
     validate_order order_total (Some (NFloat nan)) = false) /\
  (forall minimum : num, ext_value minimum <> None ->
     validate_order (NFloat infinity) (Some minimum) = true) /\
  validate_order (NFloat infinity) None = true.
Proof.
  unfold validate_order. repeat split.
  - intros m. rewrite py_ge_value. reflexivity.
  - intros a. change (default (NFloat 10.00%float) (Some (NFloat nan))) with (NFloat nan).
    rewrite py_ge_value. unfold value_cmp.
    change (ext_value (NFloat nan)) with (@None ext).
    destruct (ext_value a); reflexivity.
  - intros m Hm. change (default (NFloat 10.00%float) (Some m)) with m.
    rewrite py_ge_value. unfold value_cmp.
    change (ext_value (NFloat infinity)) with (Some PosInf).
    destruct (ext_value m) as [[| |]|]; [reflexivity..|contradiction].
Qed.

(** ** The tier table *)

Lemma NFloat_lt_inj (a b : float) (c : float) :
  NFloat a = NFloat b -> PrimFloat.ltb a c = PrimFloat.ltb b c.
Proof. intros [= ->]. reflexivity. Qed.

(** X9.  The tier is matched exactly: the rate is 0.05, 0.10 or 0.15 precisely for
    the strings ["bronze"], ["silver"] and ["gold"], and the int 0 for every
    other value (another spelling, another case, [None], a number). *)
Theorem tier_rate_exact_match (user : gmap string pyval) (tier : pyval) :
  user !! "loyaltyTier" = Some tier ->
  (tier_rate user = Ok (NFloat 0.05%float) <-> tier = PyStr "bronze") /\
  (tier_rate user = Ok (NFloat 0.10%float) <-> tier = PyStr "silver") /\
  (tier_rate user = Ok (NFloat 0.15%float) <-> tier = PyStr "gold") /\
  (tier_rate user = Ok (NInt 0) <-> ~ known_tier tier).
Proof.
  intros Ht. unfold tier_rate, subscript. rewrite Ht. cbn [bind].
  assert (D1 : NFloat 0.05%float <> NFloat 0.10%float)
    by (intros H; apply (NFloat_lt_inj _ _ 0.07%float) in H; discriminate).
  assert (D2 : NFloat 0.05%float <> NFloat 0.15%float)
    by (intros H; apply (NFloat_lt_inj _ _ 0.07%float) in H; discriminate).
  assert (D3 : NFloat 0.10%float <> NFloat 0.15%float)
    by (intros H; apply (NFloat_lt_inj _ _ 0.12%float) in H; discriminate).
  unfold known_tier.
  destruct tier as [|s|n]; cbn [dict_get].
  - repeat split; intros G; try discriminate; try reflexivity.
    intros [?|[?|?]]; discriminate.
  - rewrite tier_discounts_lookup.
    repeat case_decide; subst; repeat split; intros G;
      try reflexivity; try congruence; try discriminate;
      try (exfalso; apply G; auto; fail);
      try (intros [?|[?|?]]; congruence).
  - repeat split; intros G; try discriminate; try reflexivity.
    intros [?|[?|?]]; discriminate.
Qed.

Lemma tier_rate_exact_match_witness :
  let user : gmap string pyval :=
    {[ "loyaltyTier" := PyStr "Gold"; "state" := PyStr "CA" ]} in
  (tier_rate user = Ok (NFloat 0.05%float) <-> PyStr "Gold" = PyStr "bronze") /\
  (tier_rate user = Ok (NFloat 0.10%float) <-> PyStr "Gold" = PyStr "silver") /\
  (tier_rate user = Ok (NFloat 0.15%float) <-> PyStr "Gold" = PyStr "gold") /\
  (tier_rate user = Ok (NInt 0) <-> ~ known_tier (PyStr "Gold")).
Proof.
  intros user. apply (tier_rate_exact_match user (PyStr "Gold")). reflexivity.
Defined.

(** ** Inputs as documented *)

(** X5.  On the inputs the docstring describes (items with a float price and an
    int quantity in the range of floats, a user dict holding both keys, and
    no tax rate or a float one) the call returns a summary: it raises
    nothing, whatever the tier and the state are. *)
Theorem documented_input_returns items (user : gmap string pyval)
  (tax_rate : option float) :
  Forall documented_item items ->
  is_Some (user !! "loyaltyTier") ->
  is_Some (user !! "state") ->
  exists r, calculate_total items user (option_map NFloat tax_rate) = Ok r.
Proof.
  intros Hitems [tier Ht] [st Hst].
  destruct (subtotal_of_documented items Hitems) as (s & x & Hs & Hx).
  destruct (volume_discount_zero_or_float s x (total_items_of items) Hx)
    as (vd & Hvd & Zvd).
  destruct (loyalty_discount_returns s x user tier Hx Ht) as (ld & Hld & Zld).
  destruct (py_add_zero_or_float vd ld Zvd Zld) as (td & Htd & Ztd).
  destruct (py_sub_zero_or_float s td x Hx Ztd) as (ta & y & Hta & Hy).
  assert (exists g, effective_tax_rate user (option_map NFloat tax_rate) = Ok (NFloat g))
    as [g Hg].
  { destruct tax_rate as [g|]; cbn [option_map effective_tax_rate]; [eauto|].
    unfold subscript. rewrite Hst. cbn [bind].
    destruct (eq_str st "CA"); eauto. }
  destruct (tax_and_total_return ta (NFloat g) y g Hy eq_refl)
    as (tx & tot & Htx & Htot).
  eexists. eapply calculate_total_intro; eassumption.
Qed.

Lemma documented_input_returns_witness :
  exists r,
    calculate_total
      [ {| price := NFloat 19.99%float; quantity := 3 |};
        {| price := NFloat 4.5%float; quantity := 12 |} ]
      {[ "loyaltyTier" := PyStr "silver"; "state" := PyStr "TX" ]}
      (option_map NFloat None) = Ok r.
Proof.
  apply documented_input_returns.
  - repeat constructor; eexists; reflexivity.
  - eexists. reflexivity.
  - eexists. reflexivity.
Defined.
